(** * extension_helpers.setup_helpers: a shallow embedding and its properties

    The module [setup_helpers.py] collects, for a package build, the
    sub-packages, the extension modules declared by per-package
    [setup_package.py] files, the Cython sources nobody declared, and the
    flags [pkg-config] reports.  It is written against the operating system,
    [setuptools] and [distutils]; here those are the fields of one interface,
    [Platform], and the module itself is a set of computations in a
    state-and-exception monad over the interpreter's state. *)

From Stdlib Require Import Ascii.
From stdpp Require Import base gmap strings list.

(** ** Python strings and bytes *)

Module Py.

(** [s.endswith(suffix)] *)
Definition endswith (s suffix : string) : bool :=
  bool_decide (String.length suffix ≤ String.length s) &&
  String.eqb
    (String.substring (String.length s - String.length suffix)
       (String.length suffix) s)
    suffix.

(** [s.endswith((a, b, ...))]: true when one of the suffixes matches. *)
Definition endswith_any (s : string) (suffixes : list string) : bool :=
  existsb (endswith s) suffixes.

(** [s[:k]] for a non-negative [k]. *)
Definition slice_to (k : nat) (s : string) : string :=
  String.substring 0 k s.

(** [s[k:]] for a non-negative [k]. *)
Definition slice_from (k : nat) (s : string) : string :=
  String.substring k (String.length s - k) s.

(** [s[:-k]] for a positive [k]: everything but the last [k] characters,
    the empty string when [s] is shorter. *)
Definition slice_to_neg (k : nat) (s : string) : string :=
  String.substring 0 (String.length s - k) s.

(** [sep.join(parts)] *)
Definition join (sep : string) (parts : list string) : string :=
  String.concat sep parts.

Fixpoint split_go (sep : ascii) (cur : string) (s : string) : list string :=
  match s with
  | EmptyString => [String.rev cur]
  | String a s' =>
      if decide (a = sep) then String.rev cur :: split_go sep EmptyString s'
      else split_go sep (String a cur) s'
  end.

(** [s.split(sep)] for a one-character separator. *)
Definition split (sep : ascii) (s : string) : list string :=
  split_go sep EmptyString s.

Fixpoint split1_go (sep : ascii) (cur : string) (s : string) : list string :=
  match s with
  | EmptyString => [String.rev cur]
  | String a s' =>
      if decide (a = sep) then [String.rev cur; s']
      else split1_go sep (String a cur) s'
  end.

(** [s.split(sep, 1)]: at most one cut, at the first separator. *)
Definition split1 (sep : ascii) (s : string) : list string :=
  split1_go sep EmptyString s.

(** ASCII white space, as [bytes.strip] and [bytes.split] see it. *)
Definition is_space (a : ascii) : bool := Ascii.is_space a.

Fixpoint lstrip (s : string) : string :=
  match s with
  | EmptyString => EmptyString
  | String a s' => if is_space a then lstrip s' else s
  end.

(** [b.strip()] *)
Definition strip (s : string) : string :=
  String.rev (lstrip (String.rev (lstrip s))).

(** [b.split()]: the maximal runs of non-space characters. *)
Definition split_ws (s : string) : list string := String.words s.

(** A byte below 128. *)
Definition is_ascii (a : ascii) : bool :=
  match a with Ascii _ _ _ _ _ _ _ b7 => negb b7 end.

Fixpoint all_ascii (s : string) : bool :=
  match s with
  | EmptyString => true
  | String a s' => is_ascii a && all_ascii s'
  end.

(** [b.decode('ascii')]: [None] stands for [UnicodeDecodeError]. *)
Definition decode_ascii (b : string) : option string :=
  if all_ascii b then Some b else None.

(** [min(l, key=len)]: the first element of least length; [None] stands
    for the [ValueError] Python raises on an empty sequence. *)
Definition min_by_len (l : list string) : option string :=
  match l with
  | [] => None
  | x :: xs =>
      Some (foldl (fun best y =>
                     if (String.length y <? String.length best)%nat then y else best)
                  x xs)
  end.

(** [del l[i]]: [None] stands for [IndexError]. *)
Definition del {A} (i : nat) (l : list A) : option (list A) :=
  if decide (i < length l) then Some (delete i l) else None.

(** [list(enumerate(l))] *)
Definition enumerate {A} (l : list A) : list (nat * A) := imap pair l.

End Py.

(** ** The data the module handles *)

(** [distutils.core.Extension], restricted to the attributes this module
    reads or writes.  [include_dirs] is the constructor's keyword argument as
    it was passed ([None] when it was left out); [extra_link_args] starts
    empty. *)
Record Extension := mkExtension {
  name : string;
  sources : list string;
  include_dirs : option (list string);
  extra_link_args : list string
}.

(** [Extension(name, sources, include_dirs=...)] *)
Definition new_Extension (n : string) (srcs : list string)
    (incl : option (list string)) : Extension :=
  {| name := n; sources := srcs; include_dirs := incl; extra_link_args := [] |}.

Global Instance Extension_eq_dec : EqDecision Extension.
Proof. solve_decision. Defined.

(** The [package_data] argument of [setup()]: package name to file patterns. *)
Abbreviation package_data_t := (gmap string (list string)).

(** What [read_configuration] returns, by section and option.  Only
    [options.package_data] is ever looked at, so every option value is given
    the type of that one. *)
Abbreviation configuration := (gmap string (gmap string package_data_t)).

(** One entry of [get_build_options()]: the arguments that follow the
    command name in a call of [add_command_option]. *)
Record build_option := mkBuildOption {
  bo_name : string;
  bo_doc : string;
  bo_is_bool : bool
}.

(** A call of [add_command_option(command, name, doc, is_bool)]. *)
Record command_option := mkCommandOption {
  co_command : string;
  co_name : string;
  co_doc : string;
  co_is_bool : bool
}.

(** An imported [setup_package.py].  Each of the four hooks may be missing
    ([hasattr] is false: [None]); a hook takes no argument, so it is given by
    what it returns. *)
Record setup_package := mkSetupPackage {
  get_build_options : option (list build_option);
  get_external_libraries : option (list string);
  get_extensions : option (list Extension);
  get_package_data : option package_data_t
}.

(** [_module_state] *)
Record module_state := mkModuleState {
  registered_commands : option (list string);
  have_sphinx : bool;
  package_cache : option (list string);
  exclude_packages : gset string;
  excludes_too_late : bool
}.

(** [_module_state] as the module body leaves it: [have_sphinx] tells whether
    [import sphinx] went through. *)
Definition initial_module_state (sphinx_imported : bool) : module_state :=
  {| registered_commands := None;
     have_sphinx := sphinx_imported;
     package_cache := None;
     exclude_packages := ∅;
     excludes_too_late := false |}.

Definition set_package_cache (c : option (list string)) (s : module_state) :=
  {| registered_commands := registered_commands s;
     have_sphinx := have_sphinx s;
     package_cache := c;
     exclude_packages := exclude_packages s;
     excludes_too_late := excludes_too_late s |}.

Definition set_exclude_packages (x : gset string) (s : module_state) :=
  {| registered_commands := registered_commands s;
     have_sphinx := have_sphinx s;
     package_cache := package_cache s;
     exclude_packages := x;
     excludes_too_late := excludes_too_late s |}.

Definition set_excludes_too_late (b : bool) (s : module_state) :=
  {| registered_commands := registered_commands s;
     have_sphinx := have_sphinx s;
     package_cache := package_cache s;
     exclude_packages := exclude_packages s;
     excludes_too_late := b |}.

(** Exceptions raised by the module's own code. *)
Inductive exn :=
| RuntimeError (msg : string)
| ValueError
| IndexError
| UnicodeDecodeError.

Inductive outcome (A : Type) :=
| Ok (a : A)
| Raise (e : exn).
Global Arguments Ok {A} a.
Global Arguments Raise {A} e.

(** What a spawned process did: it ran to its end with an output and a return
    code, or the call raised [subprocess.CalledProcessError], whose fields are
    kept as they print. *)
Inductive process_result :=
| Completed (output : string) (returncode : Z)
| CalledProcessError (cmd returncode output : string).

(** Values stored in the dictionary [pkg_config] builds: a string, or the
    tuple a [-D] flag is turned into. *)
Inductive arg_value :=
| AStr (s : string)
| ATuple (parts : list string).

(** Values of the dictionary [get_package_info] returns. *)
Inductive info_value :=
| VExtensions (exts : list Extension)
| VPackages (pkgs : list string)
| VPackageDir (d : gmap string string)
| VPackageData (d : package_data_t).

(** The dictionary [get_package_info] returns. *)
Abbreviation package_info := (gmap string info_value).

(** [DistutilsExtensionArgs]: a [defaultdict] whose missing entries are empty
    lists.  [result[key]] creates the entry when it reads it. *)
Abbreviation DistutilsExtensionArgs := (gmap string (list arg_value)).

(** ** The platform the module runs on *)

(** Everything [setup_helpers.py] imports and calls.  [Env] is the state of
    the process outside the module: the file system, the working directory,
    the command line, the installed tools.  [OptVal] is the type of a
    distutils option value. *)
Class Platform (Env OptVal : Type) := {
  os_path_join : string → list string → string;
  os_path_splitext : string → string * string;
  os_path_dirname : string → string;
  os_path_exists : Env → string → bool;
  os_path_isfile : Env → string → bool;
  os_path_relpath : Env → string → string;
  os_path_realpath : Env → string → string;
  (** [__file__] of [setup_helpers.py] *)
  module_file : string;
  read_configuration : Env → string → configuration;
  (** [setuptools.find_packages(where=..., exclude=...)] *)
  setuptools_find_packages : Env → string → list string → list string;
  (** [import_file(path, name=...)] *)
  import_file : Env → string → string → setup_package;
  (** [walk_skip_hidden(top)]: the triples [(dirpath, dirnames, filenames)]
      in the order they are produced. *)
  walk_skip_hidden : Env → string → list (string * list string * list string);
  get_compiler_option : Env → list command_option → string;
  shutil_copy : Env → string → string → Env;
  (** [Popen(command, shell=True, stdout=PIPE)] followed by [communicate()] *)
  subprocess_run : Env → string → process_result * Env;
  (** [b.decode(sys.getfilesystemencoding())] *)
  fs_decode : string → option string;
  get_distutils_build_or_install_option : Env → list command_option → string → OptVal;
  (** Python's truth value of an option value *)
  truthy : OptVal → bool
}.

(** ** The interpreter state and the monad of the module's code *)

Section SetupHelpers.

Context {Env OptVal : Type} `{!Platform Env OptVal}.

(** The state a call runs in: the module's own [_module_state], the process
    environment, the options handed to [add_command_option] so far, and what
    was sent to [warnings.warn] and to [distutils.log.warn]. *)
Record world := mkWorld {
  ms : module_state;
  env : Env;
  command_options : list command_option;
  warnings : list (string * string);
  distutils_log : list string
}.

Definition with_ms (f : module_state → module_state) (w : world) : world :=
  {| ms := f (ms w); env := env w; command_options := command_options w;
     warnings := warnings w; distutils_log := distutils_log w |}.

Definition with_env (f : Env → Env) (w : world) : world :=
  {| ms := ms w; env := f (env w); command_options := command_options w;
     warnings := warnings w; distutils_log := distutils_log w |}.

Definition with_command_options
    (f : list command_option → list command_option) (w : world) : world :=
  {| ms := ms w; env := env w; command_options := f (command_options w);
     warnings := warnings w; distutils_log := distutils_log w |}.

Definition with_warnings
    (f : list (string * string) → list (string * string)) (w : world) : world :=
  {| ms := ms w; env := env w; command_options := command_options w;
     warnings := f (warnings w); distutils_log := distutils_log w |}.

Definition with_distutils_log (f : list string → list string) (w : world) : world :=
  {| ms := ms w; env := env w; command_options := command_options w;
     warnings := warnings w; distutils_log := f (distutils_log w) |}.

(** A computation runs from a state to a value or an exception, and a state;
    what was written before an exception stays written. *)
Definition M (A : Type) : Type := world → outcome A * world.

#[global] Instance M_ret : MRet M := λ A a w, (Ok a, w).

#[global] Instance M_bind : MBind M := λ A B k c w,
  match c w with
  | (Ok a, w') => k a w'
  | (Raise e, w') => (Raise e, w')
  end.

Definition raise {A} (e : exn) : M A := λ w, (Raise e, w).

Definition gets {A} (f : world → A) : M A := λ w, (Ok (f w), w).

Definition modify (f : world → world) : M unit := λ w, (Ok tt, f w).

(** [for x in l: body] *)
Fixpoint for_each {A} (l : list A) (body : A → M unit) : M unit :=
  match l with
  | [] => mret tt
  | x :: xs => body x ;; for_each xs body
  end.

(** [for x in l: body], where the body updates the local variables [s]. *)
Fixpoint fold_each {A S} (l : list A) (s : S) (body : S → A → M S) : M S :=
  match l with
  | [] => mret s
  | x :: xs => s' ← body s x; fold_each xs s' body
  end.

(** A value that may be missing, with the exception raised when it is. *)
Definition or_raise {A} (e : exn) (o : option A) : M A :=
  match o with
  | Some a => mret a
  | None => raise e
  end.

(** *** Calls into the platform *)

Definition warnings_warn (message category : string) : M unit :=
  modify (with_warnings (λ l, l ++ [(message, category)])).

Definition log_warn (message : string) : M unit :=
  modify (with_distutils_log (λ l, l ++ [message])).

(** [add_command_option(command, name, doc, is_bool)] of [distutils_helpers]:
    the call is recorded. *)
Definition add_command_option (command name_ doc : string) (is_bool : bool) : M unit :=
  modify (with_command_options (λ l, l ++ [mkCommandOption command name_ doc is_bool])).

Definition path_exists (p : string) : M bool := gets (λ w, os_path_exists (env w) p).
Definition path_isfile (p : string) : M bool := gets (λ w, os_path_isfile (env w) p).
Definition path_relpath (p : string) : M string := gets (λ w, os_path_relpath (env w) p).
Definition path_realpath (p : string) : M string := gets (λ w, os_path_realpath (env w) p).

Definition copy_file (src dst : string) : M unit :=
  modify (with_env (λ e, shutil_copy e src dst)).

Definition run_process (command : string) : M process_result :=
  λ w, let '(r, e) := subprocess_run (env w) command in (Ok r, with_env (λ _, e) w).

Definition newline : string := String (ascii_of_nat 10) EmptyString.

Definition exclude_deprecation : string :=
  "Use of the exclude parameter is no longer supported since it does " +:+
  "not work as expected. Use add_exclude_packages instead. Note that " +:+
  "it must be called prior to any other calls from setup helpers.".

(** ** The functions of [setup_helpers.py] *)

Definition add_exclude_packages (excludes : list string) : M unit :=
  too_late ← gets (λ w, excludes_too_late (ms w));
  if (too_late : bool) then
    raise (RuntimeError
      ("add_package_excludes must be called before all other setup helper " +:+
       "functions in order to properly handle excluded packages"))
  else
    modify (with_ms (λ st,
      set_exclude_packages (exclude_packages st ∪ list_to_set excludes) st)).

Definition find_packages (where_ : string) (exclude : list string)
    (invalidate_cache : bool) : M (list string) :=
  (if bool_decide (exclude ≠ []) then
     warnings_warn exclude_deprecation "AstropyDeprecationWarning"
   else mret tt) ;;
  (* Calling add_exclude_packages after this point will have no effect *)
  modify (with_ms (set_excludes_too_late true)) ;;
  cache ← gets (λ w, package_cache (ms w));
  match negb invalidate_cache, cache with
  | true, Some cached => mret cached
  | _, _ =>
      excl ← gets (λ w, elements (exclude_packages (ms w)));
      packages ← gets (λ w, setuptools_find_packages (env w) where_ excl);
      modify (with_ms (set_package_cache (Some packages))) ;;
      mret packages
  end.

(** The generator is run to its end and gives the modules in the order it
    yields them.  It only reads the environment, which the bodies of the
    loops over it do not touch, so running it ahead of them changes nothing. *)
Definition iter_setup_packages (srcdir : string) (packages : list string)
    : M (list setup_package) :=
  fold_each packages [] (λ yielded packagename,
    let package_parts := Py.split "." packagename in
    let package_path := os_path_join srcdir package_parts in
    setup_package ← path_relpath (os_path_join package_path ["setup_package.py"]);
    is_file ← path_isfile setup_package;
    if (is_file : bool) then
      module ← gets (λ w, import_file (env w) setup_package
                            (packagename +:+ ".setup_package"));
      mret (yielded ++ [module])
    else mret yielded).

(** The pairs [(extmod, fullfn)] in the order they are yielded.  The [break]
    ends the walk after its first directory. *)
Definition iter_pyx_files (package_dir package_name : string)
    : M (list (string * string)) :=
  walk ← gets (λ w, walk_skip_hidden (env w) package_dir);
  match walk with
  | [] => mret []
  | (dirpath, dirnames, filenames) :: _ =>
      fold_each filenames [] (λ yielded fn,
        if Py.endswith fn ".pyx" then
          fullfn ← path_relpath (os_path_join dirpath [fn]);
          (* Package must match file name *)
          let extmod := Py.join "." [package_name; Py.slice_to_neg 4 fn] in
          mret (yielded ++ [(extmod, fullfn)])
        else mret yielded)
  end.

Definition get_cython_extensions (srcdir : string) (packages : list string)
    (prevextensions : list Extension) (extincludedirs : option (list string))
    : M (list Extension) :=
  let prevsourcepaths := [] in
  let ext_modules := [] in
  prevsourcepaths ← fold_each prevextensions prevsourcepaths (λ prevsourcepaths ext,
    fold_each (sources ext) prevsourcepaths (λ prevsourcepaths s,
      if Py.endswith_any s [".pyx"; ".c"; ".cpp"] then
        sourcepath ← path_realpath (os_path_splitext s).1;
        mret (prevsourcepaths ++ [sourcepath])
      else mret prevsourcepaths));
  fold_each packages ext_modules (λ ext_modules package_name,
    let package_parts := Py.split "." package_name in
    let package_path := os_path_join srcdir package_parts in
    pyx_files ← iter_pyx_files package_path package_name;
    fold_each pyx_files ext_modules (λ ext_modules '(extmod, pyxfn),
      sourcepath ← path_realpath (os_path_splitext pyxfn).1;
      if bool_decide (sourcepath ∉ prevsourcepaths) then
        mret (ext_modules ++ [new_Extension extmod [pyxfn] extincludedirs])
      else mret ext_modules)).

Definition args_get (key : string) (d : DistutilsExtensionArgs) : list arg_value :=
  default [] (d !! key).

(** [result[key].append(v)] *)
Definition args_append (key : string) (v : arg_value) (d : DistutilsExtensionArgs)
    : DistutilsExtensionArgs :=
  <[key := args_get key d ++ [v]]> d.

(** [result[key].extend(vs)] *)
Definition args_extend (key : string) (vs : list arg_value) (d : DistutilsExtensionArgs)
    : DistutilsExtensionArgs :=
  <[key := args_get key d ++ vs]> d.

(** [DistutilsExtensionArgs.update] *)
Definition args_update (other : list (string * list arg_value))
    (d : DistutilsExtensionArgs) : DistutilsExtensionArgs :=
  foldl (λ d '(key, val), args_extend key val d) d other.

Definition flag_map : gmap string string :=
  {[ "-I" := "include_dirs"; "-L" := "library_dirs"; "-l" := "libraries";
     "-D" := "define_macros"; "-U" := "undef_macros" ]}.

Definition pkg_config (packages default_libraries : list string)
    (executable : string) : M DistutilsExtensionArgs :=
  let command := executable +:+ " --libs --cflags " +:+ Py.join " " packages in
  let result : DistutilsExtensionArgs := ∅ in
  run ← run_process command;
  match run with
  | CalledProcessError cmd returncode output =>
      let lines :=
        [ executable +:+ " failed. This may cause the build to fail below.";
          "  command: " +:+ cmd;
          "  returncode: " +:+ returncode;
          "  output: " +:+ output ] in
      log_warn (Py.join newline lines) ;;
      mret (args_extend "libraries" (AStr <$> default_libraries) result)
  | Completed output returncode =>
      let output := Py.strip output in
      if bool_decide (returncode ≠ 0%Z) then
        let lines :=
          [ "pkg-config could not lookup up package(s) " +:+
              Py.join ", " packages +:+ ".";
            "This may cause the build to fail below." ] in
        log_warn (Py.join newline lines) ;;
        mret (args_extend "libraries" (AStr <$> default_libraries) result)
      else
        fold_each (Py.split_ws output) result (λ result token,
          arg ← or_raise UnicodeDecodeError (Py.decode_ascii (Py.slice_to 2 token));
          value ← or_raise UnicodeDecodeError (fs_decode (Py.slice_from 2 token));
          match flag_map !! arg with
          | Some key =>
              let value :=
                if bool_decide (arg = "-D") then ATuple (Py.split1 "=" value)
                else AStr value in
              mret (args_append key value result)
          | None =>
              mret (args_append "extra_compile_args" (AStr value) result)
          end)
  end.

Definition add_external_library (library : string) : M unit :=
  for_each ["build"; "build_ext"; "install"] (λ command,
    add_command_option command ("use-system-" +:+ library)
      ("Use the system " +:+ library +:+ " library") true).

Definition use_system_library (library : string) : M OptVal :=
  first ← gets (λ w, get_distutils_build_or_install_option
                       (env w) (command_options w) ("use_system_" +:+ library));
  if truthy first then mret first
  else gets (λ w, get_distutils_build_or_install_option
                    (env w) (command_options w) "use_system_libraries").

(** [ext.extra_link_args.append(arg)] *)
Definition append_link_arg (arg : string) (ext : Extension) : Extension :=
  {| name := name ext; sources := sources ext; include_dirs := include_dirs ext;
     extra_link_args := extra_link_args ext ++ [arg] |}.

Definition get_package_info (srcdir : string) (exclude : list string)
    : M package_info :=
  let ext_modules : list Extension := [] in
  let package_dir : gmap string string := ∅ in
  (* Read in existing package data, and add to it below *)
  let setup_cfg := os_path_join srcdir ["setup.cfg"] in
  cfg_exists ← path_exists setup_cfg;
  package_data ←
    (if (cfg_exists : bool) then
       conf ← gets (λ w, read_configuration (env w) setup_cfg);
       match conf !! "options" with
       | Some options =>
           match options !! "package_data" with
           | Some package_data => mret package_data
           | None => mret ∅
           end
       | None => mret ∅
       end
     else mret ∅);
  (if bool_decide (exclude ≠ []) then
     warnings_warn exclude_deprecation "AstropyDeprecationWarning"
   else mret tt) ;;
  (* Use the find_packages tool to locate all packages and modules *)
  packages ← find_packages srcdir exclude false;
  (* Update package_dir if the package lies in a subdirectory *)
  let package_dir :=
    if bool_decide (srcdir ≠ ".") then <["" := srcdir]> package_dir
    else package_dir in
  (* The build options are extracted first *)
  setuppkgs ← iter_setup_packages srcdir packages;
  for_each setuppkgs (λ setuppkg,
    match get_build_options setuppkg with
    | Some options =>
        for_each options (λ option,
          add_command_option "build" (bo_name option) (bo_doc option)
            (bo_is_bool option))
    | None => mret tt
    end ;;
    match get_external_libraries setuppkg with
    | Some libraries => for_each libraries add_external_library
    | None => mret tt
    end) ;;
  setuppkgs ← iter_setup_packages srcdir packages;
  '(ext_modules, package_data) ←
    fold_each setuppkgs (ext_modules, package_data)
      (λ '(ext_modules, package_data) setuppkg,
        let ext_modules :=
          match get_extensions setuppkg with
          | Some exts => ext_modules ++ exts
          | None => ext_modules
          end in
        let package_data :=
          match get_package_data setuppkg with
          | Some data => data ∪ package_data
          | None => package_data
          end in
        mret (ext_modules, package_data));
  (* Locate any .pyx files not already specified, and add their extensions in *)
  cython ← get_cython_extensions srcdir packages ext_modules (Some ["numpy"]);
  let ext_modules := ext_modules ++ cython in
  (* Now remove extensions that have the special name 'skip_cython' *)
  ext_modules ←
    fold_each (reverse (Py.enumerate ext_modules)) ext_modules
      (λ ext_modules '(i, ext),
        if bool_decide (name ext = "skip_cython") then
          or_raise IndexError (Py.del i ext_modules)
        else mret ext_modules);
  compiler ← gets (λ w, get_compiler_option (env w) (command_options w));
  let ext_modules :=
    if bool_decide (compiler = "msvc") then append_link_arg "/MANIFEST" <$> ext_modules
    else ext_modules in
  ext_modules ←
    (if bool_decide (0 < length ext_modules) then
       main_package_dir ← or_raise ValueError (Py.min_by_len packages);
       src_path ← path_relpath
                    (os_path_join (os_path_dirname module_file) ["src"]);
       copy_file (os_path_join src_path ["compiler.c"])
                 (os_path_join srcdir [main_package_dir; "_compiler.c"]) ;;
       let ext :=
         new_Extension (main_package_dir +:+ ".compiler_version")
           [os_path_join main_package_dir ["_compiler.c"]] None in
       mret (ext_modules ++ [ext])
     else mret ext_modules);
  mret ({[ "ext_modules" := VExtensions ext_modules;
           "packages" := VPackages packages;
           "package_dir" := VPackageDir package_dir;
           "package_data" := VPackageData package_data ]} : package_info).


(** ** The calls a build script can make *)

Inductive call :=
| Call_add_exclude_packages (excludes : list string)
| Call_get_package_info (srcdir : string) (exclude : list string)
| Call_iter_setup_packages (srcdir : string) (packages : list string)
| Call_iter_pyx_files (package_dir package_name : string)
| Call_get_cython_extensions (srcdir : string) (packages : list string)
    (prevextensions : list Extension) (extincludedirs : option (list string))
| Call_pkg_config (packages default_libraries : list string) (executable : string)
| Call_add_external_library (library : string)
| Call_use_system_library (library : string)
| Call_find_packages (where_ : string) (exclude : list string)
    (invalidate_cache : bool).

(** The state a call leaves behind, whether it returns or raises. *)
Definition exec (c : call) (w : world) : world :=
  match c with
  | Call_add_exclude_packages excludes => (add_exclude_packages excludes w).2
  | Call_get_package_info srcdir exclude => (get_package_info srcdir exclude w).2
  | Call_iter_setup_packages srcdir packages =>
      (iter_setup_packages srcdir packages w).2
  | Call_iter_pyx_files package_dir package_name =>
      (iter_pyx_files package_dir package_name w).2
  | Call_get_cython_extensions srcdir packages prev incl =>
      (get_cython_extensions srcdir packages prev incl w).2
  | Call_pkg_config packages default_libraries executable =>
      (pkg_config packages default_libraries executable w).2
  | Call_add_external_library library => (add_external_library library w).2
  | Call_use_system_library library => (use_system_library library w).2
  | Call_find_packages where_ exclude invalidate_cache =>
      (find_packages where_ exclude invalidate_cache w).2
  end.

(** A sequence of calls, one after the other. *)
Definition exec_all (calls : list call) (w : world) : world :=
  foldl (λ w c, exec c w) w calls.

(** A call that asks [find_packages] to forget its cache. *)
Definition invalidates (c : call) : bool :=
  match c with
  | Call_find_packages _ _ invalidate_cache => invalidate_cache
  | _ => false
  end.

(** The four routines the aggregation calls that are not [find_packages]. *)
Definition is_helper_routine (c : call) : bool :=
  match c with
  | Call_iter_setup_packages _ _ | Call_iter_pyx_files _ _
  | Call_get_cython_extensions _ _ _ _ | Call_pkg_config _ _ _ => true
  | _ => false
  end.

(** ** What the functions compute, written as plain functions of the
    environment *)

(** The [setup_package.py] of one package, when there is one. *)
Definition setup_package_of (e : Env) (srcdir packagename : string)
    : option setup_package :=
  let path :=
    os_path_relpath e
      (os_path_join (os_path_join srcdir (Py.split "." packagename))
         ["setup_package.py"]) in
  if os_path_isfile e path
  then Some (import_file e path (packagename +:+ ".setup_package"))
  else None.

Definition setup_packages_of (e : Env) (srcdir : string) (packages : list string)
    : list setup_package :=
  omap (setup_package_of e srcdir) packages.

(** The directory of a package below [srcdir]. *)
Definition package_directory (srcdir package_name : string) : string :=
  os_path_join srcdir (Py.split "." package_name).

(** The first directory [walk_skip_hidden] reports, and the files it lists
    there: the files that lie directly in [dir]. *)
Definition top_directory (e : Env) (dir : string) : option (string * list string) :=
  match walk_skip_hidden e dir with
  | [] => None
  | (dirpath, _, filenames) :: _ => Some (dirpath, filenames)
  end.

Definition files_directly_in (e : Env) (dir : string) : list string :=
  match top_directory e dir with
  | Some (_, filenames) => filenames
  | None => []
  end.

(** The path [iter_pyx_files] gives for the file [fn] of [dir]. *)
Definition path_of_file (e : Env) (dir fn : string) : string :=
  match top_directory e dir with
  | Some (dirpath, _) => os_path_relpath e (os_path_join dirpath [fn])
  | None => fn
  end.

(** What [iter_pyx_files] yields for a package. *)
Definition pyx_files_of (e : Env) (package_dir package_name : string)
    : list (string * string) :=
  (λ fn, (Py.join "." [package_name; Py.slice_to_neg 4 fn],
          path_of_file e package_dir fn))
  <$> filter (λ fn, Py.endswith fn ".pyx" = true) (files_directly_in e package_dir).

(** A path without its extension, made real: what two sources are compared
    by. *)
Definition stripped_real_path (e : Env) (s : string) : string :=
  os_path_realpath e (os_path_splitext s).1.

(** The sources of the declared extensions that count as Cython output. *)
Definition declared_sources (prevextensions : list Extension) : list string :=
  ext ← prevextensions;
  filter (λ s, Py.endswith_any s [".pyx"; ".c"; ".cpp"] = true) (sources ext).

(** A path is covered when a declared source has its stripped real path. *)
Definition covered (e : Env) (prevextensions : list Extension) (path : string) : Prop :=
  stripped_real_path e path ∈
    (stripped_real_path e <$> declared_sources prevextensions).

#[global] Instance covered_dec e prev path : Decision (covered e prev path).
Proof. unfold covered. apply _. Defined.

(** The extensions Cython discovery is to add: one for each [.pyx] file lying
    directly in the directory of a package of the list and not covered by a
    declared extension, named after the package and the file. *)
Definition undeclared_pyx_extensions (e : Env) (srcdir : string)
    (packages : list string) (prevextensions : list Extension)
    (extincludedirs : option (list string)) : list Extension :=
  package_name ← packages;
  let dir := package_directory srcdir package_name in
  fn ← filter (λ fn, Py.endswith fn ".pyx" = true ∧
                     ¬ covered e prevextensions (path_of_file e dir fn))
              (files_directly_in e dir);
  [ {| name := package_name +:+ "." +:+ Py.slice_to_neg 4 fn;
       sources := [path_of_file e dir fn];
       include_dirs := extincludedirs;
       extra_link_args := [] |} ].

(** Where [pkg_config] files one token of the output, and what it files:
    [None] when the token cannot be decoded. *)
Definition token_entry (token : string) : option (string * arg_value) :=
  arg ← Py.decode_ascii (Py.slice_to 2 token);
  value ← fs_decode (Py.slice_from 2 token);
  Some (match flag_map !! arg with
        | Some key =>
            (key, if bool_decide (arg = "-D") then ATuple (Py.split1 "=" value)
                  else AStr value)
        | None => ("extra_compile_args", AStr value)
        end).

(** The command line [pkg_config] runs. *)
Definition pkg_config_command (packages : list string) (executable : string) : string :=
  executable +:+ " --libs --cflags " +:+ Py.join " " packages.

(** The package list [find_packages] answers with in the state [w]. *)
Definition found_packages (where_ : string) (invalidate_cache : bool) (w : world)
    : list string :=
  match negb invalidate_cache, package_cache (ms w) with
  | true, Some cached => cached
  | _, _ =>
      setuptools_find_packages (env w) where_ (elements (exclude_packages (ms w)))
  end.

(** [package_data] as [setup.cfg] gives it. *)
Definition configured_package_data (e : Env) (srcdir : string) : package_data_t :=
  let setup_cfg := os_path_join srcdir ["setup.cfg"] in
  if os_path_exists e setup_cfg then
    default ∅ (read_configuration e setup_cfg !! "options" ≫= (.!! "package_data"))
  else ∅.

(** [d.update(other)] for each [other] of a list, in order. *)
Definition updated_with (others : list package_data_t) (d : package_data_t)
    : package_data_t :=
  foldl (λ d other, other ∪ d) d others.

(** The entry for [key] in the last dictionary of the list that has one. *)
Definition latest_entry (key : string) (others : list package_data_t)
    : option (list string) :=
  head (omap (.!! key) (reverse others)).

(** The extensions the [setup_package.py] modules declare, in order. *)
Definition declared_extensions (modules : list setup_package) : list Extension :=
  m ← modules; default [] (get_extensions m).

(** The options the first pass over the modules registers, in order. *)
Definition library_options (library : string) : list command_option :=
  (λ command, mkCommandOption command ("use-system-" +:+ library)
                ("Use the system " +:+ library +:+ " library") true)
  <$> ["build"; "build_ext"; "install"].

Definition declared_options (modules : list setup_package) : list command_option :=
  m ← modules;
  ((λ o, mkCommandOption "build" (bo_name o) (bo_doc o) (bo_is_bool o))
     <$> default [] (get_build_options m)) ++
  (default [] (get_external_libraries m) ≫= library_options).

(** The extension built from [compiler.c] for the package [p]. *)
Definition compiler_version_extension (p : string) : Extension :=
  new_Extension (p +:+ ".compiler_version")
    [os_path_join p ["_compiler.c"]] None.

(** The intermediate values of [get_package_info], from the state it is
    called in. *)
Record collected := mkCollected {
  c_packages : list string;
  c_modules : list setup_package;
  c_declared : list Extension;
  c_cython : list Extension;
  c_options : list command_option;
  c_compiler : string
}.

Definition collect (srcdir : string) (w : world) : collected :=
  let packages := found_packages srcdir false w in
  let modules := setup_packages_of (env w) srcdir packages in
  let declared := declared_extensions modules in
  let options := command_options w ++ declared_options modules in
  {| c_packages := packages;
     c_modules := modules;
     c_declared := declared;
     c_cython :=
       undeclared_pyx_extensions (env w) srcdir packages declared (Some ["numpy"]);
     c_options := options;
     c_compiler := get_compiler_option (env w) options |}.

(** The collected extensions once the [skip_cython] markers are gone and the
    linker flag for Microsoft compilers is in place. *)
Definition kept_extensions (c : collected) : list Extension :=
  filter (λ ext, name ext ≠ "skip_cython") (c_declared c ++ c_cython c).

Definition linked_extensions (c : collected) : list Extension :=
  if bool_decide (c_compiler c = "msvc")
  then append_link_arg "/MANIFEST" <$> kept_extensions c
  else kept_extensions c.

(** The extensions [get_package_info] returns: when there is any, one more is
    built for the shortest package name. *)
Definition final_extensions (c : collected) : list Extension :=
  match linked_extensions c with
  | [] => []
  | exts =>
      exts ++ (compiler_version_extension <$> option_list (Py.min_by_len (c_packages c)))
  end.

Definition package_info_of (srcdir : string) (w : world) : package_info :=
  let c := collect srcdir w in
  {[ "ext_modules" := VExtensions (final_extensions c);
     "packages" := VPackages (c_packages c);
     "package_dir" :=
       VPackageDir (if bool_decide (srcdir ≠ ".") then {[ "" := srcdir ]} else ∅);
     "package_data" :=
       VPackageData
         (updated_with (omap get_package_data (c_modules c))
            (configured_package_data (env w) srcdir)) ]}.

(** *** The states the functions leave *)

Definition warned_about_exclude (exclude : list string) (w : world) : world :=
  if bool_decide (exclude ≠ [])
  then with_warnings (λ l, l ++ [(exclude_deprecation, "AstropyDeprecationWarning")]) w
  else w.

Definition after_find_packages (where_ : string) (exclude : list string)
    (invalidate_cache : bool) (w : world) : world :=
  with_ms
    (λ st, set_package_cache (Some (found_packages where_ invalidate_cache w))
             (set_excludes_too_late true st))
    (warned_about_exclude exclude w).

Definition add_options (options : list command_option) (w : world) : world :=
  with_command_options (λ l, l ++ options) w.

(** The copy of [compiler.c] into the package [p]. *)
Definition compiler_copied (srcdir p : string) (e : Env) : Env :=
  shutil_copy e
    (os_path_join
       (os_path_relpath e (os_path_join (os_path_dirname module_file) ["src"]))
       ["compiler.c"])
    (os_path_join srcdir [p; "_compiler.c"]).

Definition after_get_package_info (srcdir : string) (exclude : list string)
    (w : world) : world :=
  let c := collect srcdir w in
  let w' :=
    add_options (declared_options (c_modules c))
      (after_find_packages srcdir exclude false (warned_about_exclude exclude w)) in
  match linked_extensions c, Py.min_by_len (c_packages c) with
  | _ :: _, Some p => with_env (compiler_copied srcdir p) w'
  | _, _ => w'
  end.

(** *** Relations between the state before and the state after a call *)

Definition preserves (R : world → world → Prop) {A} (c : M A) : Prop :=
  ∀ w, R w (c w).2.

(** [_module_state] is as it was. *)
Definition same_module_state (w w' : world) : Prop := ms w' = ms w.

(** Only the package cache, the exclusion set and the finalization flag may
    differ. *)
Definition same_outside_discovery (w w' : world) : Prop :=
  registered_commands (ms w') = registered_commands (ms w) ∧
  have_sphinx (ms w') = have_sphinx (ms w).

(** Only the package cache and the exclusion set may differ. *)
Definition same_outside_cache_and_excludes (w w' : world) : Prop :=
  registered_commands (ms w') = registered_commands (ms w) ∧
  have_sphinx (ms w') = have_sphinx (ms w) ∧
  excludes_too_late (ms w') = excludes_too_late (ms w).

(** A cache holding [pk] still holds it. *)
Definition keeps_cache (pk : list string) (w w' : world) : Prop :=
  package_cache (ms w) = Some pk → package_cache (ms w') = Some pk.

(** A relation that holds between two states with the same
    [_module_state]. *)
Class MsInvariant (R : relation world) : Prop :=
  ms_invariant : ∀ w w', ms w' = ms w → R w w'.

(** ** Further views of what the functions compute *)

(** A token [pkg_config] can decode: its first two bytes are ASCII and the
    rest decodes in the file-system encoding. *)
Definition decodable (token : string) : Prop :=
  is_Some (Py.decode_ascii (Py.slice_to 2 token)) ∧
  is_Some (fs_decode (Py.slice_from 2 token)).

(** The remainders of the tokens that start with [flag], decoded, in the
    order of the output. *)
Definition flagged (flag : string) (tokens : list string) : list string :=
  omap (λ token,
          if bool_decide (Py.slice_to 2 token = flag)
          then fs_decode (Py.slice_from 2 token) else None)
       tokens.

(** The remainders of the tokens that start with none of the five flags. *)
Definition unflagged (tokens : list string) : list string :=
  omap (λ token,
          if bool_decide (flag_map !! Py.slice_to 2 token = None)
          then fs_decode (Py.slice_from 2 token) else None)
       tokens.

(** The keys the docstring of [pkg_config] lists. *)
Definition extension_arguments : gset string :=
  {[ "include_dirs"; "library_dirs"; "libraries"; "define_macros";
     "undef_macros"; "extra_compile_args" ]}.

(** A value fits its key: one- or two-part tuples under [define_macros],
    strings elsewhere. *)
Definition fits (key : string) (v : arg_value) : Prop :=
  match v with
  | AStr _ => key ≠ "define_macros"
  | ATuple parts => key = "define_macros" ∧ (length parts = 1 ∨ length parts = 2)
  end.

(** Once exclusion is finalized it stays so, and the exclusion set stays as
    it is. *)
Definition exclusions_frozen (w w' : world) : Prop :=
  excludes_too_late (ms w) = true →
  excludes_too_late (ms w') = true ∧
  exclude_packages (ms w') = exclude_packages (ms w).

(** The deprecation warning for a non-empty [exclude], as it is recorded. *)
Definition deprecation : string * string :=
  (exclude_deprecation, "AstropyDeprecationWarning").

(** A dictionary as the docstring of [pkg_config] describes it: no key but
    the six listed, and every value fitting its key. *)
Definition shaped (d : DistutilsExtensionArgs) : Prop :=
  dom d ⊆ extension_arguments ∧
  ∀ key values, d !! key = Some values → Forall (fits key) values.

End SetupHelpers.

(** ** A project to run the definitions on

    A POSIX platform and a source tree with one package, [pkg], that declares
    a C extension and ships two Cython files, and its sub-package [pkg.sub]. *)

Module Demo.

(** The process environment: which copies were made, which commands ran. *)
Record machine := mkMachine {
  copied : list (string * string);
  spawned : list string
}.

(** [posixpath.join] *)
Definition join (a : string) (parts : list string) : string :=
  foldl (λ path b,
           if String.prefix "/" b then b
           else if bool_decide (path = "") || Py.endswith path "/" then path +:+ b
           else path +:+ "/" +:+ b)
        a parts.

Fixpoint has_name_char (rev_rest : string) : bool :=
  match rev_rest with
  | EmptyString => false
  | String a rest =>
      if decide (a = "/"%char) then false
      else if decide (a = "."%char) then has_name_char rest
      else true
  end.

Fixpoint splitext_go (rev_rest ext : string) : option (string * string) :=
  match rev_rest with
  | EmptyString => None
  | String a rest =>
      if decide (a = "/"%char) then None
      else if decide (a = "."%char) then
        if has_name_char rest then Some (String.rev rest, String a ext) else None
      else splitext_go rest (String a ext)
  end.

(** [posixpath.splitext]: the cut is at the last dot of the last component,
    leading dots apart. *)
Definition splitext (p : string) : string * string :=
  default (p, "") (splitext_go (String.rev p) "").

Fixpoint dirname_go (rev_rest : string) : string :=
  match rev_rest with
  | EmptyString => ""
  | String a rest => if decide (a = "/"%char) then String.rev rest else dirname_go rest
  end.

(** [posixpath.dirname], for paths without doubled slashes. *)
Definition dirname (p : string) : string := dirname_go (String.rev p).

(** The working directory is the source tree: a leading [./] goes away. *)
Definition relpath (p : string) : string :=
  if String.prefix "./" p then Py.slice_from 2 p else p.

Definition realpath (p : string) : string := join "/work" [relpath p].

Definition fast_c : Extension := new_Extension "pkg.fast" ["pkg/fast.c"] (Some []).

Definition marker : Extension := new_Extension "skip_cython" [] None.

(** [pkg/setup_package.py] *)
Definition pkg_setup_package : setup_package :=
  {| get_build_options := Some [mkBuildOption "with-openmp" "Use OpenMP" true];
     get_external_libraries := Some ["wcslib"];
     get_extensions := Some [fast_c; marker];
     get_package_data := Some {[ "pkg" := ["data/*.fits"] ]} |}.

(** [pkg/sub/setup_package.py] *)
Definition sub_setup_package : setup_package :=
  {| get_build_options := None;
     get_external_libraries := None;
     get_extensions := None;
     get_package_data := Some {[ "pkg.sub" := ["tables/*"]; "pkg" := ["cards/*"] ]} |}.

Definition no_hooks : setup_package :=
  {| get_build_options := None; get_external_libraries := None;
     get_extensions := None; get_package_data := None |}.

Definition setup_cfg : configuration :=
  {[ "metadata" := ∅;
     "options" := {[ "package_data" := {[ "pkg" := ["*.txt"]; "docs" := ["*.rst"] ]} ]} ]}.

Definition walk (dir : string) : list (string * list string * list string) :=
  if bool_decide (relpath dir = "pkg") then
    [ (dir, ["sub"], ["__init__.py"; "fast.c"; "fast.pyx"; "slow.pyx"; "setup_package.py"]);
      (join dir ["sub"], [], ["__init__.py"; "deep.pyx"; "setup_package.py"]) ]
  else if bool_decide (relpath dir = "pkg/sub") then
    [ (dir, [], ["__init__.py"; "deep.pyx"; "setup_package.py"]) ]
  else [].

(** What [pkg-config --libs --cflags foo] prints. *)
Definition pkg_config_output : string :=
  "-I/usr/include/foo -DNDEBUG -DVERSION=2 -pthread -L/usr/lib -lfoo" +:+ newline.

#[global] Instance platform : Platform machine bool := {|
  os_path_join := join;
  os_path_splitext := splitext;
  os_path_dirname := dirname;
  os_path_exists := λ _ p, bool_decide (relpath p = "setup.cfg");
  os_path_isfile := λ _ p,
    bool_decide (relpath p ∈ ["pkg/setup_package.py"; "pkg/sub/setup_package.py"]);
  os_path_relpath := λ _ p, relpath p;
  os_path_realpath := λ _ p, realpath p;
  module_file := "/site/extension_helpers/setup_helpers.py";
  read_configuration := λ _ _, setup_cfg;
  setuptools_find_packages := λ _ _ exclude,
    filter (λ p, p ∉ exclude) ["pkg"; "pkg.sub"];
  import_file := λ _ p _,
    if bool_decide (relpath p = "pkg/setup_package.py") then pkg_setup_package
    else if bool_decide (relpath p = "pkg/sub/setup_package.py") then sub_setup_package
    else no_hooks;
  walk_skip_hidden := λ _ dir, walk dir;
  get_compiler_option := λ _ _, "unix";
  shutil_copy := λ e src dst,
    {| copied := copied e ++ [(src, dst)]; spawned := spawned e |};
  subprocess_run := λ e command,
    (if String.prefix "pkg-config " command then Completed pkg_config_output 0
     else Completed "" 127,
     {| copied := copied e; spawned := spawned e ++ [command] |});
  fs_decode := Some;
  get_distutils_build_or_install_option := λ _ _ _, false;
  truthy := λ b, b
|}.

(** What [pkg_config] answers for that output. *)
Definition pkg_config_answer : DistutilsExtensionArgs :=
  {[ "include_dirs" := [AStr "/usr/include/foo"];
     "define_macros" := [ATuple ["NDEBUG"]; ATuple ["VERSION"; "2"]];
     "extra_compile_args" := [AStr "thread"];
     "library_dirs" := [AStr "/usr/lib"];
     "libraries" := [AStr "foo"] ]}.

(** The state right after [import extension_helpers.setup_helpers]. *)
Definition fresh : @world machine :=
  {| ms := initial_module_state false;
     env := {| copied := []; spawned := [] |};
     command_options := [];
     warnings := [];
     distutils_log := [] |}.

End Demo.

(** ** A second project: one package built with a Microsoft compiler, on a
    machine whose [pkg-config] prints a byte outside ASCII *)

Module Windows.

Definition core_c : Extension :=
  {| name := "app.core"; sources := ["app/core.c"]; include_dirs := None;
     extra_link_args := ["/DEBUG"] |}.

(** [app/setup_package.py] *)
Definition app_setup_package : setup_package :=
  {| get_build_options := None;
     get_external_libraries := None;
     get_extensions := Some [Demo.marker; core_c];
     get_package_data := None |}.

(** The output [-I/opt/caf\xe9 -lm]. *)
Definition pkg_config_output : string :=
  "-I/opt/caf" +:+ String (ascii_of_nat 233) " -lm".

(** The process environment has no state of its own here. *)
#[global] Instance platform : Platform unit bool := {|
  os_path_join := Demo.join;
  os_path_splitext := Demo.splitext;
  os_path_dirname := Demo.dirname;
  os_path_exists := λ _ _, false;
  os_path_isfile := λ _ p, bool_decide (Demo.relpath p = "app/setup_package.py");
  os_path_relpath := λ _ p, Demo.relpath p;
  os_path_realpath := λ _ p, Demo.realpath p;
  module_file := "/site/extension_helpers/setup_helpers.py";
  read_configuration := λ _ _, ∅;
  setuptools_find_packages := λ _ _ exclude, filter (λ p, p ∉ exclude) ["app"];
  import_file := λ _ _ _, app_setup_package;
  walk_skip_hidden := λ _ dir,
    if bool_decide (Demo.relpath dir = "app")
    then [(dir, [], ["__init__.py"; "core.c"; "setup_package.py"])] else [];
  get_compiler_option := λ _ _, "msvc";
  shutil_copy := λ e _ _, e;
  subprocess_run := λ e _, (Completed pkg_config_output 0, e);
  fs_decode := λ b, if Py.all_ascii b then Some b else None;
  get_distutils_build_or_install_option := λ _ _ _, false;
  truthy := λ b, b
|}.

Definition fresh : @world unit :=
  {| ms := initial_module_state false;
     env := ();
     command_options := [];
     warnings := [];
     distutils_log := [] |}.

End Windows.

(** * Properties *)

(** ** Python strings and lists *)

Section PyFacts.

Implicit Types (s t suffix stem : string).

Lemma length_append s t :
  String.length (s +:+ t) = String.length s + String.length t.
Proof. induction s as [|a s IH]; simpl; [done|]. by rewrite IH. Qed.

Lemma substring_all s : String.substring 0 (String.length s) s = s.
Proof. induction s as [|a s IH]; simpl; [done|]. by rewrite IH. Qed.

Lemma substring_append_l s t :
  String.substring 0 (String.length s) (s +:+ t) = s.
Proof.
  induction s as [|a s IH]; simpl.
  - by destruct t.
  - by rewrite IH.
Qed.

Lemma substring_append_r s t :
  String.substring (String.length s) (String.length t) (s +:+ t) = t.
Proof. induction s as [|a s IH]; simpl; [apply substring_all|exact IH]. Qed.

Lemma substring_split s n :
  n ≤ String.length s →
  s = String.substring 0 n s +:+ String.substring n (String.length s - n) s.
Proof.
  revert n. induction s as [|a s IH]; intros [|n] Hn; simpl in *.
  - done.
  - lia.
  - by rewrite substring_all.
  - rewrite (IH n) at 1 by lia. reflexivity.
Qed.

(** A string ends with [suffix] exactly when it is some stem followed by it,
    and cutting [len(suffix)] characters off the end gives the stem back. *)
Lemma endswith_append stem suffix : Py.endswith (stem +:+ suffix) suffix = true.
Proof.
  unfold Py.endswith. rewrite length_append.
  rewrite bool_decide_true by lia.
  replace (String.length stem + String.length suffix - String.length suffix)
    with (String.length stem) by lia.
  rewrite substring_append_r. simpl. apply String.eqb_refl.
Qed.

Lemma endswith_stem s suffix :
  Py.endswith s suffix = true →
  s = Py.slice_to_neg (String.length suffix) s +:+ suffix.
Proof.
  unfold Py.endswith, Py.slice_to_neg.
  intros [Hlen Heq]%andb_prop.
  apply bool_decide_eq_true in Hlen. apply String.eqb_eq in Heq.
  rewrite (substring_split s (String.length s - String.length suffix)) at 1 by lia.
  f_equal. rewrite <- Heq at 3. f_equal. lia.
Qed.

Lemma slice_to_neg_append stem suffix :
  Py.slice_to_neg (String.length suffix) (stem +:+ suffix) = stem.
Proof.
  unfold Py.slice_to_neg. rewrite length_append.
  replace (String.length stem + String.length suffix - String.length suffix)
    with (String.length stem) by lia.
  apply substring_append_l.
Qed.

Lemma compiler_version_not_marker p : p +:+ ".compiler_version" ≠ "skip_cython".
Proof.
  intros Heq. apply (f_equal String.length) in Heq.
  rewrite length_append in Heq. simpl in Heq. lia.
Qed.

(** [min(l, key=len)] picks the first of the shortest elements. *)
Lemma min_by_len_spec (l : list string) p :
  Py.min_by_len l = Some p →
  ∃ l1 l2, l = l1 ++ p :: l2 ∧
    Forall (λ q, String.length p < String.length q) l1 ∧
    Forall (λ q, String.length p ≤ String.length q) l2.
Proof.
  destruct l as [|x xs]; [done|]. simpl. intros [= <-].
  revert x. induction xs as [|y ys IH] using rev_ind; intros x.
  - exists [], []. by repeat constructor.
  - rewrite foldl_snoc.
    destruct (IH x) as (l1 & l2 & Hl & H1 & H2).
    set (best := foldl _ x ys) in *.
    destruct (String.length y <? String.length best) eqn:Hlt.
    + apply Nat.ltb_lt in Hlt.
      exists (x :: ys), []. split; [done|]. split; [|constructor].
      rewrite Hl. apply Forall_app. split.
      * eapply Forall_impl; [exact H1|]. simpl. lia.
      * constructor; [done|]. eapply Forall_impl; [exact H2|]. simpl. lia.
    + apply Nat.ltb_ge in Hlt.
      exists l1, (l2 ++ [y]). split.
      * rewrite app_comm_cons, Hl. by rewrite <- (assoc_L (++)).
      * split; [done|]. apply Forall_app. split; [done|]. by constructor.
Qed.

End PyFacts.

(** ** The module's code *)

Section Facts.

Context {Env OptVal : Type} `{!Platform Env OptVal}.

Implicit Types (w : @world Env) (e : Env).

(** ** Running the monad *)

Lemma bind_run {A B} (c : M A) (k : A → M B) w :
  (c ≫= k) w =
  match c w with
  | (Ok a, w') => k a w'
  | (Raise x, w') => (Raise x, w')
  end.
Proof. reflexivity. Qed.

Lemma bind_ok {A B} (c : M A) (k : A → M B) w a w' :
  c w = (Ok a, w') → (c ≫= k) w = k a w'.
Proof. intros Hc. rewrite bind_run, Hc. reflexivity. Qed.

Lemma ret_run {A} (a : A) w : (mret a : M A) w = (Ok a, w).
Proof. reflexivity. Qed.

Lemma Ok_pair_inj {A} (a b : A) w w' : (Ok a, w) = (Ok b, w') → a = b ∧ w = w'.
Proof. by intros [= -> ->]. Qed.

Lemma gets_run {A} (f : world → A) w : gets f w = (Ok (f w), w).
Proof. reflexivity. Qed.

(** A loop whose body only reads the state is a left fold. *)
Lemma fold_each_reads {A S} (l : list A) (body : S → A → M S) (g : S → A → S) w :
  (∀ s x, body s x w = (Ok (g s x), w)) →
  ∀ s, fold_each l s body w = (Ok (foldl g s l), w).
Proof.
  intros Hbody. induction l as [|x l IH]; intros s; simpl.
  - reflexivity.
  - rewrite (bind_ok _ _ _ _ _ (Hbody s x)). apply IH.
Qed.

(** Appending what each element gives is the list bind. *)
Lemma foldl_app_bind {A B} (f : A → list B) (l : list A) (acc : list B) :
  foldl (λ acc x, acc ++ f x) acc l = acc ++ (l ≫= f).
Proof.
  revert acc. induction l as [|x l IH]; intros acc; simpl.
  - by rewrite app_nil_r.
  - rewrite IH. by rewrite (assoc_L (++)).
Qed.

Lemma omap_bind_list {A B} (f : A → option B) (l : list A) :
  omap f l = l ≫= (λ x, option_list (f x)).
Proof.
  induction l as [|x l IH]; simpl; [done|].
  destruct (f x); simpl; by f_equal.
Qed.

(** ** The routines that only read *)

Lemma iter_setup_packages_run srcdir packages w :
  iter_setup_packages srcdir packages w =
  (Ok (setup_packages_of (env w) srcdir packages), w).
Proof.
  unfold iter_setup_packages, setup_packages_of.
  rewrite (fold_each_reads _ _
    (λ acc p, acc ++ option_list (setup_package_of (env w) srcdir p))).
  - by rewrite foldl_app_bind, omap_bind_list.
  - intros acc p. unfold setup_package_of, path_relpath, path_isfile.
    rewrite bind_run, gets_run, bind_run, gets_run.
    destruct (os_path_isfile _ _); simpl.
    + reflexivity.
    + by rewrite ret_run, app_nil_r.
Qed.


Lemma bind_if_singleton {A B} (b : A → bool) (h : A → B) (l : list A) :
  l ≫= (λ x, if b x then [h x] else []) = h <$> filter (λ x, b x = true) l.
Proof.
  induction l as [|x l IH]; [done|].
  rewrite bind_cons, filter_cons, IH. destruct (b x) eqn:Hb.
  - by rewrite decide_True.
  - by rewrite decide_False.
Qed.

Lemma iter_pyx_files_run package_dir package_name w :
  iter_pyx_files package_dir package_name w =
  (Ok (pyx_files_of (env w) package_dir package_name), w).
Proof.
  unfold iter_pyx_files, pyx_files_of, files_directly_in, path_of_file, top_directory.
  rewrite bind_run, gets_run.
  destruct (walk_skip_hidden (env w) package_dir) as [|[[dirpath dirnames] filenames] ?].
  { reflexivity. }
  rewrite (fold_each_reads _ _
    (λ acc fn, acc ++
       if Py.endswith fn ".pyx" then
         [(Py.join "." [package_name; Py.slice_to_neg 4 fn],
           os_path_relpath (env w) (os_path_join dirpath [fn]))]
       else [])).
  - rewrite foldl_app_bind. simpl.
    by rewrite (bind_if_singleton (λ fn, Py.endswith fn ".pyx")).
  - intros acc fn. destruct (Py.endswith fn ".pyx").
    + reflexivity.
    + by rewrite ret_run, app_nil_r.
Qed.

Lemma declared_source_paths_run (prevextensions : list Extension) w :
  fold_each prevextensions []
    (λ prevsourcepaths ext,
       fold_each (sources ext) prevsourcepaths
         (λ prevsourcepaths s,
            if Py.endswith_any s [".pyx"; ".c"; ".cpp"]
            then sourcepath ← path_realpath (os_path_splitext s).1;
                 mret (prevsourcepaths ++ [sourcepath])
            else mret prevsourcepaths)) w =
  (Ok (stripped_real_path (env w) <$> declared_sources prevextensions), w).
Proof.
  set (f := λ s : string,
         if Py.endswith_any s [".pyx"; ".c"; ".cpp"]
         then [stripped_real_path (env w) s] else []).
  rewrite (fold_each_reads _ _ (λ acc ext, acc ++ (sources ext ≫= f))).
  - rewrite foldl_app_bind, app_nil_l. do 2 f_equal. unfold declared_sources.
    induction prevextensions as [|ext prev IH]; [done|].
    rewrite !bind_cons, fmap_app, IH. f_equal.
    apply (bind_if_singleton (λ s, Py.endswith_any s [".pyx"; ".c"; ".cpp"])).
  - intros acc ext.
    rewrite (fold_each_reads _ _ (λ acc s, acc ++ f s)).
    + by rewrite foldl_app_bind.
    + intros acc' s. unfold f. destruct (Py.endswith_any _ _).
      * reflexivity.
      * by rewrite ret_run, app_nil_r.
Qed.

Lemma get_cython_extensions_run srcdir packages prevextensions extincludedirs w :
  get_cython_extensions srcdir packages prevextensions extincludedirs w =
  (Ok (undeclared_pyx_extensions (env w) srcdir packages prevextensions
         extincludedirs), w).
Proof.
  unfold get_cython_extensions.
  rewrite (bind_ok _ _ _ _ _ (declared_source_paths_run prevextensions w)).
  set (found := λ package_name : string,
         let dir := package_directory srcdir package_name in
         fn ← filter (λ fn, Py.endswith fn ".pyx" = true ∧
                            ¬ covered (env w) prevextensions
                                (path_of_file (env w) dir fn))
                     (files_directly_in (env w) dir);
         [ {| name := package_name +:+ "." +:+ Py.slice_to_neg 4 fn;
              sources := [path_of_file (env w) dir fn];
              include_dirs := extincludedirs;
              extra_link_args := [] |} ]).
  rewrite (fold_each_reads _ _ (λ acc package_name, acc ++ found package_name)).
  { by rewrite foldl_app_bind. }
  intros acc' package_name.
  rewrite (bind_ok _ _ _ _ _ (iter_pyx_files_run _ _ w)).
  fold (package_directory srcdir package_name).
  set (dir := package_directory srcdir package_name).
  set (one := λ p : string * string,
         if bool_decide (stripped_real_path (env w) p.2 ∉
              stripped_real_path (env w) <$> declared_sources prevextensions)
         then [new_Extension p.1 [p.2] extincludedirs] else []).
  rewrite (fold_each_reads _ _ (λ acc p, acc ++ one p)).
  2:{ intros acc [extmod pyxfn]. unfold one, path_realpath.
      rewrite bind_run, gets_run. simpl.
      fold (stripped_real_path (env w) pyxfn).
      destruct (bool_decide _); [reflexivity|by rewrite ret_run, app_nil_r]. }
  rewrite foldl_app_bind. apply (f_equal (λ l, (Ok (acc' ++ l), w))).
  unfold pyx_files_of, found. fold dir. rewrite list_fmap_bind.
  induction (files_directly_in (env w) dir) as [|fn fns IH]; [done|].
  rewrite !filter_cons. destruct (Py.endswith fn ".pyx") eqn:Hpyx.
  - rewrite decide_True by done. rewrite bind_cons, IH.
    unfold one at 1, covered. simpl. case_bool_decide as Hcov.
    + rewrite decide_True by done. by rewrite bind_cons.
    + by rewrite decide_False by (intros [_ ?]; done).
  - rewrite decide_False by done. rewrite decide_False by (intros [? _]; done).
    apply IH.
Qed.


(** ** [find_packages] and [add_exclude_packages] *)

Lemma found_packages_warned where_ invalidate_cache exclude w :
  found_packages where_ invalidate_cache (warned_about_exclude exclude w) =
  found_packages where_ invalidate_cache w.
Proof. unfold warned_about_exclude. by case_bool_decide. Qed.

Lemma find_packages_run where_ exclude invalidate_cache w :
  find_packages where_ exclude invalidate_cache w =
  (Ok (found_packages where_ invalidate_cache w),
   after_find_packages where_ exclude invalidate_cache w).
Proof.
  unfold find_packages, after_find_packages, found_packages, warned_about_exclude.
  destruct w as [[rc hs cache excl late] e opts warns logs].
  rewrite bind_run.
  case_bool_decide; destruct invalidate_cache, cache; reflexivity.
Qed.

Lemma add_exclude_packages_run excludes w :
  add_exclude_packages excludes w =
  if excludes_too_late (ms w)
  then (Raise (RuntimeError
          ("add_package_excludes must be called before all other setup helper " +:+
           "functions in order to properly handle excluded packages")), w)
  else (Ok (),
        with_ms (λ st, set_exclude_packages
                         (exclude_packages st ∪ list_to_set excludes) st) w).
Proof.
  unfold add_exclude_packages. rewrite bind_run, gets_run.
  by destruct (excludes_too_late (ms w)).
Qed.

(** ** The passes of [get_package_info] over the modules *)

Lemma add_options_nil w : add_options [] w = w.
Proof. destruct w. unfold add_options, with_command_options; simpl. by rewrite app_nil_r. Qed.

Lemma add_options_app o1 o2 w :
  add_options o2 (add_options o1 w) = add_options (o1 ++ o2) w.
Proof.
  unfold add_options, with_command_options; simpl. by rewrite (assoc_L (++)).
Qed.

Lemma for_each_add_options {A} (l : list A) (body : A → M unit)
    (f : A → list command_option) :
  (∀ x w, body x w = (Ok (), add_options (f x) w)) →
  ∀ w, for_each l body w = (Ok (), add_options (l ≫= f) w).
Proof.
  intros Hbody. induction l as [|x l IH]; intros w.
  - simpl. by rewrite add_options_nil.
  - simpl for_each. rewrite (bind_ok _ _ _ _ _ (Hbody x w)), IH, add_options_app.
    by rewrite bind_cons.
Qed.

Lemma add_command_option_run command name_ doc is_bool w :
  add_command_option command name_ doc is_bool w =
  (Ok (), add_options [mkCommandOption command name_ doc is_bool] w).
Proof. reflexivity. Qed.

Lemma add_external_library_run library w :
  add_external_library library w = (Ok (), add_options (library_options library) w).
Proof.
  unfold add_external_library.
  rewrite (for_each_add_options _ _
    (λ command, [mkCommandOption command ("use-system-" +:+ library)
                   ("Use the system " +:+ library +:+ " library") true])).
  - reflexivity.
  - intros. apply add_command_option_run.
Qed.

Lemma register_options_run (modules : list setup_package) w :
  for_each modules (λ setuppkg,
    match get_build_options setuppkg with
    | Some options =>
        for_each options (λ option,
          add_command_option "build" (bo_name option) (bo_doc option)
            (bo_is_bool option))
    | None => mret ()
    end ;;
    match get_external_libraries setuppkg with
    | Some libraries => for_each libraries add_external_library
    | None => mret ()
    end) w =
  (Ok (), add_options (declared_options modules) w).
Proof.
  unfold declared_options.
  apply for_each_add_options. clear w. intros m w.
  assert (Hopts : ∀ w,
    match get_build_options m with
    | Some options =>
        for_each options (λ option,
          add_command_option "build" (bo_name option) (bo_doc option)
            (bo_is_bool option))
    | None => mret ()
    end w =
    (Ok (), add_options
       ((λ o, mkCommandOption "build" (bo_name o) (bo_doc o) (bo_is_bool o))
          <$> default [] (get_build_options m)) w)).
  { intros w'. destruct (get_build_options m) as [options|]; simpl.
    - rewrite (for_each_add_options _ _
        (λ o, [mkCommandOption "build" (bo_name o) (bo_doc o) (bo_is_bool o)])).
      + apply (f_equal (λ l, (Ok (), add_options l w'))).
        induction options as [|o os IH]; [done|].
        by rewrite bind_cons, fmap_cons, IH.
      + intros. apply add_command_option_run.
    - by rewrite ret_run, add_options_nil. }
  rewrite (bind_ok _ _ _ _ _ (Hopts w)).
  destruct (get_external_libraries m) as [libraries|]; simpl.
  - rewrite (for_each_add_options _ _ library_options).
    + by rewrite add_options_app.
    + intros. apply add_external_library_run.
  - by rewrite ret_run, app_nil_r.
Qed.

Lemma collect_hooks_run (modules : list setup_package)
    (ext_modules : list Extension) (package_data : package_data_t) w :
  fold_each modules (ext_modules, package_data)
    (λ '(ext_modules, package_data) setuppkg,
       let ext_modules :=
         match get_extensions setuppkg with
         | Some exts => ext_modules ++ exts
         | None => ext_modules
         end in
       let package_data :=
         match get_package_data setuppkg with
         | Some data => data ∪ package_data
         | None => package_data
         end in
       mret (ext_modules, package_data)) w =
  (Ok (ext_modules ++ declared_extensions modules,
       updated_with (omap get_package_data modules) package_data), w).
Proof.
  revert ext_modules package_data.
  induction modules as [|m modules IH]; intros ext_modules package_data.
  - simpl. by rewrite ret_run, app_nil_r.
  - simpl fold_each. rewrite bind_run, ret_run, IH.
    unfold declared_extensions. rewrite bind_cons.
    change (omap get_package_data (m :: modules)) with
      (from_option (λ d, d :: omap get_package_data modules)
         (omap get_package_data modules) (get_package_data m)).
    destruct (get_extensions m), (get_package_data m);
      simpl; rewrite <- ?(assoc_L (++)); reflexivity.
Qed.

(** Deleting the marked entries from the last index down leaves the
    unmarked ones, and no index is out of range. *)
Lemma remove_skip_cython_run (l rest : list Extension) w :
  fold_each (reverse (Py.enumerate l)) (l ++ rest)
    (λ ext_modules '(i, ext),
       if bool_decide (name ext = "skip_cython")
       then or_raise IndexError (Py.del i ext_modules)
       else mret ext_modules) w =
  (Ok (filter (λ ext, name ext ≠ "skip_cython") l ++ rest), w).
Proof.
  revert rest. induction l as [|x l IH] using rev_ind; intros rest.
  - reflexivity.
  - unfold Py.enumerate in *. rewrite imap_app. simpl.
    rewrite reverse_snoc. simpl fold_each. rewrite Nat.add_0_r.
    rewrite filter_app, filter_cons, filter_nil.
    case_bool_decide as Hname.
    + unfold Py.del. rewrite <- (assoc_L (++)). simpl.
      rewrite decide_True by (rewrite length_app; simpl; lia).
      rewrite delete_middle. rewrite bind_run. simpl.
      rewrite IH. rewrite decide_False by (intros Hne; by apply Hne).
      by rewrite app_nil_r.
    + rewrite bind_run, ret_run. rewrite <- (assoc_L (++)). simpl.
      rewrite IH. rewrite decide_True by done.
      by rewrite <- (assoc_L (++)).
Qed.


Lemma read_package_data_run srcdir w :
  (if os_path_exists (env w) (os_path_join srcdir ["setup.cfg"]) then
     conf ← gets (λ w, read_configuration (env w) (os_path_join srcdir ["setup.cfg"]));
     match conf !! "options" with
     | Some options =>
         match options !! "package_data" with
         | Some package_data => mret package_data
         | None => mret ∅
         end
     | None => mret ∅
     end
   else mret ∅) w =
  (Ok (configured_package_data (env w) srcdir), w).
Proof.
  unfold configured_package_data.
  destruct (os_path_exists _ _); [|reflexivity].
  rewrite bind_run, gets_run.
  destruct (read_configuration _ _ !! "options") as [options|]; [|reflexivity].
  simpl. by destruct (options !! "package_data").
Qed.

Lemma warn_exclude_run exclude w :
  (if bool_decide (exclude ≠ [])
   then warnings_warn exclude_deprecation "AstropyDeprecationWarning"
   else mret ()) w =
  (Ok (), warned_about_exclude exclude w).
Proof. unfold warned_about_exclude. by case_bool_decide. Qed.

Lemma min_by_len_is_Some (l : list string) : l ≠ [] → is_Some (Py.min_by_len l).
Proof. destruct l; [done|]. intros _. by eexists. Qed.

Lemma linked_extensions_nil (c : collected) :
  linked_extensions c = [] ↔ kept_extensions c = [].
Proof.
  unfold linked_extensions. case_bool_decide; [|done].
  split; [apply fmap_nil_inv|by intros ->].
Qed.

Lemma collected_needs_packages srcdir w :
  c_packages (collect srcdir w) = [] → linked_extensions (collect srcdir w) = [].
Proof.
  intros Hnil. apply linked_extensions_nil.
  unfold kept_extensions, collect in *. simpl in *. by rewrite Hnil.
Qed.

Lemma remove_all_skip_cython_run (l : list Extension) w :
  fold_each (reverse (Py.enumerate l)) l
    (λ ext_modules '(i, ext),
       if bool_decide (name ext = "skip_cython")
       then or_raise IndexError (Py.del i ext_modules)
       else mret ext_modules) w =
  (Ok (filter (λ ext, name ext ≠ "skip_cython") l), w).
Proof.
  pose proof (remove_skip_cython_run l [] w) as Hrun.
  by rewrite !app_nil_r in Hrun.
Qed.

Lemma get_package_info_run srcdir exclude w :
  get_package_info srcdir exclude w =
  (Ok (package_info_of srcdir w), after_get_package_info srcdir exclude w).
Proof.
  unfold get_package_info, path_exists.
  rewrite bind_run, gets_run.
  rewrite (bind_ok _ _ _ _ _ (read_package_data_run srcdir w)).
  rewrite (bind_ok _ _ _ _ _ (warn_exclude_run exclude w)).
  rewrite (bind_ok _ _ _ _ _ (find_packages_run _ _ _ _)).
  rewrite found_packages_warned.
  set (w2 := after_find_packages _ _ _ _).
  assert (He2 : env w2 = env w).
  { unfold w2, after_find_packages, warned_about_exclude.
    by repeat case_bool_decide. }
  assert (Ho2 : command_options w2 = command_options w).
  { unfold w2, after_find_packages, warned_about_exclude.
    by repeat case_bool_decide. }
  rewrite (bind_ok _ _ _ _ _ (iter_setup_packages_run _ _ _)).
  rewrite (bind_ok _ _ _ _ _ (register_options_run _ _)).
  rewrite (bind_ok _ _ _ _ _ (iter_setup_packages_run _ _ _)).
  rewrite (bind_ok _ _ _ _ _ (collect_hooks_run _ _ _ _)).
  rewrite (bind_ok _ _ _ _ _ (get_cython_extensions_run _ _ _ _ _)).
  rewrite (bind_ok _ _ _ _ _ (remove_all_skip_cython_run _ _)).
  rewrite bind_run, gets_run.
  change (env (add_options ?o w2)) with (env w2).
  change (command_options (add_options ?o w2)) with (command_options w2 ++ o).
  rewrite He2, Ho2, !app_nil_l.
  unfold package_info_of, after_get_package_info, final_extensions.
  fold w2.
  pose proof (collected_needs_packages srcdir w) as Hneeds.
  set (c := collect srcdir w) in *.
  change (found_packages srcdir false w) with (c_packages c).
  change (setup_packages_of (env w) srcdir (c_packages c)) with (c_modules c).
  change (declared_extensions (c_modules c)) with (c_declared c).
  change (undeclared_pyx_extensions (env w) srcdir (c_packages c) (c_declared c)
            (Some ["numpy"])) with (c_cython c).
  change (filter _ (c_declared c ++ c_cython c)) with (kept_extensions c).
  change (get_compiler_option (env w) (command_options w ++ declared_options (c_modules c)))
    with (c_compiler c).
  change (if bool_decide (c_compiler c = "msvc")
          then append_link_arg "/MANIFEST" <$> kept_extensions c
          else kept_extensions c) with (linked_extensions c).
  destruct (linked_extensions c) as [|ext exts] eqn:Hlinked.
  { reflexivity. }
  destruct (min_by_len_is_Some (c_packages c)) as [p Hp].
  { intros Hnil. by specialize (Hneeds Hnil). }
  rewrite Hp. rewrite bind_run.
  rewrite bool_decide_true by (simpl; lia).
  reflexivity.
Qed.


(** ** What a call may write *)

Section Frame.

Context (R : relation (@world Env)) `{!PreOrder R}.

Lemma preserves_ret {A} (a : A) : preserves R (mret a : M A).
Proof. intros w. simpl. reflexivity. Qed.

Lemma preserves_raise {A} (x : exn) : preserves R (raise x : M A).
Proof. intros w. simpl. reflexivity. Qed.

Lemma preserves_gets {A} (f : world → A) : preserves R (gets f).
Proof. intros w. simpl. reflexivity. Qed.

Lemma preserves_or_raise {A} (x : exn) (o : option A) : preserves R (or_raise x o).
Proof. destruct o; [apply preserves_ret|apply preserves_raise]. Qed.

Lemma preserves_bind {A B} (c : M A) (k : A → M B) :
  preserves R c → (∀ a, preserves R (k a)) → preserves R (c ≫= k).
Proof.
  intros Hc Hk w. rewrite bind_run. specialize (Hc w).
  destruct (c w) as [[a|x] w']; simpl in *; [|done].
  etrans; [exact Hc|apply Hk].
Qed.

Lemma preserves_for_each {A} (l : list A) (body : A → M unit) :
  (∀ x, preserves R (body x)) → preserves R (for_each l body).
Proof.
  intros Hbody. induction l as [|x l IH]; simpl.
  - apply preserves_ret.
  - apply preserves_bind; [apply Hbody|intros _; apply IH].
Qed.

Lemma preserves_fold_each {A S} (l : list A) (s : S) (body : S → A → M S) :
  (∀ s x, preserves R (body s x)) → preserves R (fold_each l s body).
Proof.
  intros Hbody. revert s. induction l as [|x l IH]; intros s; simpl.
  - apply preserves_ret.
  - apply preserves_bind; [apply Hbody|intros s'; apply IH].
Qed.

Lemma preserves_modify (f : world → world) :
  (∀ w, R w (f w)) → preserves R (modify f).
Proof. intros Hf w. apply Hf. Qed.

End Frame.

#[local] Instance same_module_state_preorder : PreOrder (@same_module_state Env).
Proof.
  split.
  - intros w. reflexivity.
  - intros w1 w2 w3 H12 H23. unfold same_module_state in *. congruence.
Qed.

#[local] Instance same_outside_discovery_preorder :
  PreOrder (@same_outside_discovery Env).
Proof.
  split.
  - intros w. split; reflexivity.
  - intros w1 w2 w3 [? ?] [? ?]. unfold same_outside_discovery. split; congruence.
Qed.

#[local] Instance keeps_cache_preorder pk : PreOrder (@keeps_cache Env pk).
Proof.
  split.
  - intros w Hpk. exact Hpk.
  - intros w1 w2 w3 H12 H23 Hpk. apply H23, H12, Hpk.
Qed.

#[local] Instance same_module_state_invariant : MsInvariant (@same_module_state Env).
Proof. intros w w' Hms. exact Hms. Qed.

#[local] Instance same_outside_discovery_invariant :
  MsInvariant (@same_outside_discovery Env).
Proof. intros w w' Hms. unfold same_outside_discovery. by rewrite Hms. Qed.

#[local] Instance keeps_cache_invariant pk : MsInvariant (@keeps_cache Env pk).
Proof. intros w w' Hms. unfold keeps_cache. by rewrite Hms. Qed.

Lemma preserves_same_module_state (R : relation (@world Env)) `{!MsInvariant R}
    {A} (c : M A) :
  preserves (@same_module_state Env) c → preserves R c.
Proof. intros Hc w. apply ms_invariant, Hc. Qed.

Create HintDb frame.

(** One step of a frame proof: split a sequence, enter a loop, take a branch,
    or close a leaf. *)
Ltac frame_step :=
  match goal with
  | |- PreOrder _ => apply _
  | |- MsInvariant _ => apply _
  | |- ∀ _, _ => intro
  | |- preserves _ (mret _) => apply preserves_ret
  | |- preserves _ (raise _) => apply preserves_raise
  | |- preserves _ (gets _) => apply preserves_gets
  | |- preserves _ (or_raise _ _) => apply preserves_or_raise
  | |- preserves _ (_ ≫= _) => apply preserves_bind
  | |- preserves _ (for_each _ _) => apply preserves_for_each
  | |- preserves _ (fold_each _ _ _) => apply preserves_fold_each
  | |- preserves _ (match ?x with _ => _ end) => destruct x
  | |- preserves _ (match ?x with _ => _ end _) => destruct x
  | |- preserves _ _ => solve [auto with frame]
  | |- preserves _ _ =>
      apply preserves_same_module_state; [apply _|solve [auto with frame]]
  end.

Ltac frame := repeat frame_step.

(** *** The routines that leave [_module_state] alone *)

Lemma warnings_warn_same_ms message category :
  preserves (@same_module_state Env) (warnings_warn message category).
Proof. intros w. reflexivity. Qed.

Lemma log_warn_same_ms message :
  preserves (@same_module_state Env) (log_warn message).
Proof. intros w. reflexivity. Qed.

Lemma add_command_option_same_ms command name_ doc is_bool :
  preserves (@same_module_state Env) (add_command_option command name_ doc is_bool).
Proof. intros w. reflexivity. Qed.

Lemma copy_file_same_ms src dst :
  preserves (@same_module_state Env) (copy_file src dst).
Proof. intros w. reflexivity. Qed.

Lemma run_process_same_ms command :
  preserves (@same_module_state Env) (run_process command).
Proof. intros w. unfold run_process. by destruct (subprocess_run _ _). Qed.

#[local] Hint Resolve warnings_warn_same_ms log_warn_same_ms
  add_command_option_same_ms copy_file_same_ms run_process_same_ms : frame.

Lemma iter_setup_packages_same_ms srcdir packages :
  preserves (@same_module_state Env) (iter_setup_packages srcdir packages).
Proof. unfold iter_setup_packages, path_relpath, path_isfile. frame. Qed.

Lemma iter_pyx_files_same_ms package_dir package_name :
  preserves (@same_module_state Env) (iter_pyx_files package_dir package_name).
Proof. unfold iter_pyx_files, path_relpath. frame. Qed.

#[local] Hint Resolve iter_setup_packages_same_ms iter_pyx_files_same_ms : frame.

Lemma get_cython_extensions_same_ms srcdir packages prevextensions extincludedirs :
  preserves (@same_module_state Env)
    (get_cython_extensions srcdir packages prevextensions extincludedirs).
Proof. unfold get_cython_extensions, path_realpath. frame. Qed.

Lemma pkg_config_same_ms packages default_libraries executable :
  preserves (@same_module_state Env)
    (pkg_config packages default_libraries executable).
Proof. unfold pkg_config. frame. Qed.

Lemma add_external_library_same_ms library :
  preserves (@same_module_state Env) (add_external_library library).
Proof. unfold add_external_library. frame. Qed.

Lemma use_system_library_same_ms library :
  preserves (@same_module_state Env) (use_system_library library).
Proof. unfold use_system_library. frame. Qed.

#[local] Hint Resolve get_cython_extensions_same_ms pkg_config_same_ms
  add_external_library_same_ms use_system_library_same_ms : frame.

(** *** The two functions that write it *)

Lemma add_exclude_packages_frame (R : relation (@world Env)) `{!PreOrder R} excludes :
  (∀ w x, R w (with_ms (set_exclude_packages x) w)) →
  preserves R (add_exclude_packages excludes).
Proof.
  intros HR w. rewrite add_exclude_packages_run.
  destruct (excludes_too_late (ms w)); simpl; [reflexivity|].
  apply (HR w).
Qed.

Lemma get_package_info_frame (R : relation (@world Env))
    `{!PreOrder R, !MsInvariant R} srcdir exclude :
  preserves R (find_packages srcdir exclude false) →
  preserves R (get_package_info srcdir exclude).
Proof.
  intros Hfind. unfold get_package_info, path_exists, path_relpath. frame.
Qed.


Lemma find_packages_frame (R : relation (@world Env)) where_ exclude invalidate_cache :
  (∀ w, R w (after_find_packages where_ exclude invalidate_cache w)) →
  preserves R (find_packages where_ exclude invalidate_cache).
Proof. intros HR w. rewrite find_packages_run. apply HR. Qed.

Lemma find_packages_outside_discovery where_ exclude invalidate_cache :
  preserves (@same_outside_discovery Env)
    (find_packages where_ exclude invalidate_cache).
Proof.
  apply find_packages_frame. intros w.
  unfold after_find_packages, warned_about_exclude, same_outside_discovery.
  by case_bool_decide.
Qed.

Lemma find_packages_keeps_cache pk where_ exclude :
  preserves (@keeps_cache Env pk) (find_packages where_ exclude false).
Proof.
  apply find_packages_frame. intros w Hpk.
  unfold after_find_packages, found_packages. rewrite Hpk. reflexivity.
Qed.

(** Every call writes at most what [find_packages] and
    [add_exclude_packages] write. *)
Lemma exec_frame (R : relation (@world Env)) `{!PreOrder R, !MsInvariant R}
    (allowed : call → Prop) :
  (∀ excludes, preserves R (add_exclude_packages excludes)) →
  (∀ where_ exclude, preserves R (find_packages where_ exclude false)) →
  (∀ where_ exclude, allowed (Call_find_packages where_ exclude true) →
     preserves R (find_packages where_ exclude true)) →
  ∀ c w, allowed c → R w (exec c w).
Proof.
  intros Hadd Hfind Hinvalidate c w Hc.
  destruct c as [| | | | | | | |? ? [|]]; simpl.
  - apply Hadd.
  - by apply get_package_info_frame.
  - apply ms_invariant, iter_setup_packages_same_ms.
  - apply ms_invariant, iter_pyx_files_same_ms.
  - apply ms_invariant, get_cython_extensions_same_ms.
  - apply ms_invariant, pkg_config_same_ms.
  - apply ms_invariant, add_external_library_same_ms.
  - apply ms_invariant, use_system_library_same_ms.
  - by apply Hinvalidate.
  - apply Hfind.
Qed.

Lemma exec_keeps_cache pk (c : call) w :
  invalidates c = false → keeps_cache pk w (exec c w).
Proof.
  apply (exec_frame (keeps_cache pk) (λ c, invalidates c = false)).
  - intros excludes. apply add_exclude_packages_frame; [apply _|].
    intros w' x Hpk. exact Hpk.
  - intros. apply find_packages_keeps_cache.
  - intros ? ? [=].
Qed.

Lemma exec_all_keeps_cache pk (calls : list call) w :
  Forall (λ c, invalidates c = false) calls →
  keeps_cache pk w (exec_all calls w).
Proof.
  intros Hcalls. revert w. induction Hcalls as [|c calls Hc _ IH]; intros w.
  - intros Hpk. exact Hpk.
  - intros Hpk. apply IH. by apply exec_keeps_cache.
Qed.

Lemma updated_with_snoc (others : list package_data_t) other (d : package_data_t) :
  updated_with (others ++ [other]) d = other ∪ updated_with others d.
Proof. unfold updated_with. by rewrite foldl_snoc. Qed.

Lemma latest_entry_snoc key (others : list package_data_t) other :
  latest_entry key (others ++ [other]) =
  match other !! key with
  | Some v => Some v
  | None => latest_entry key others
  end.
Proof.
  unfold latest_entry. rewrite reverse_snoc.
  change (omap (.!! key) (other :: reverse others)) with
    (from_option (λ v, v :: omap (.!! key) (reverse others))
       (omap (.!! key) (reverse others)) (other !! key)).
  by destruct (other !! key).
Qed.

Lemma updated_with_lookup (others : list package_data_t) (d : package_data_t) key :
  updated_with others d !! key =
  match latest_entry key others with
  | Some v => Some v
  | None => d !! key
  end.
Proof.
  induction others as [|other others IH] using rev_ind; [done|].
  rewrite updated_with_snoc, latest_entry_snoc, lookup_union.
  destruct (other !! key) as [v|] eqn:Hother.
  - by destruct (updated_with others d !! key).
  - rewrite IH. by destruct (latest_entry key others), (d !! key).
Qed.


Lemma env_before_copy options srcdir exclude w :
  env (add_options options
         (after_find_packages srcdir exclude false
            (warned_about_exclude exclude w))) = env w.
Proof.
  unfold add_options, after_find_packages, warned_about_exclude.
  by repeat case_bool_decide.
Qed.

Lemma get_package_info_packages srcdir exclude w info w' pk :
  get_package_info srcdir exclude w = (Ok info, w') →
  info !! "packages" = Some (VPackages pk) →
  pk = found_packages srcdir false w.
Proof.
  rewrite get_package_info_run. intros [<- _]%Ok_pair_inj.
  unfold package_info_of. intros Hpk. by simplify_map_eq.
Qed.

(** ** [pkg_config] *)

Lemma pkg_config_lookup_failed packages default_libraries executable w
    output returncode e' :
  subprocess_run (env w) (pkg_config_command packages executable) =
    (Completed output returncode, e') →
  returncode ≠ 0%Z →
  ∃ message,
    pkg_config packages default_libraries executable w =
    (Ok {[ "libraries" := AStr <$> default_libraries ]},
     with_distutils_log (λ l, l ++ [message]) (with_env (λ _, e') w)).
Proof.
  intros Hrun Hcode. unfold pkg_config, run_process.
  fold (pkg_config_command packages executable).
  rewrite bind_run, Hrun. rewrite bool_decide_true by done.
  eexists. reflexivity.
Qed.

Lemma classify_token_run (token : string) entry (result : DistutilsExtensionArgs) w :
  token_entry token = Some entry →
  (arg ← or_raise UnicodeDecodeError (Py.decode_ascii (Py.slice_to 2 token));
   value ← or_raise UnicodeDecodeError (fs_decode (Py.slice_from 2 token));
   match flag_map !! arg with
   | Some key =>
       let value :=
         if bool_decide (arg = "-D") then ATuple (Py.split1 "=" value)
         else AStr value in
       mret (args_append key value result)
   | None =>
       mret (args_append "extra_compile_args" (AStr value) result)
   end) w =
  (Ok (args_append entry.1 entry.2 result), w).
Proof.
  unfold token_entry. intros Hentry.
  destruct (Py.decode_ascii (Py.slice_to 2 token)) as [arg|]; [|done].
  destruct (fs_decode (Py.slice_from 2 token)) as [value|]; [|done].
  simpl in Hentry. injection Hentry as <-.
  rewrite bind_run. simpl. rewrite bind_run. simpl.
  by destruct (flag_map !! arg).
Qed.

Lemma classify_tokens_run (tokens : list string) entries
    (result : DistutilsExtensionArgs) w :
  mapM token_entry tokens = Some entries →
  fold_each tokens result (λ result token,
    arg ← or_raise UnicodeDecodeError (Py.decode_ascii (Py.slice_to 2 token));
    value ← or_raise UnicodeDecodeError (fs_decode (Py.slice_from 2 token));
    match flag_map !! arg with
    | Some key =>
        let value :=
          if bool_decide (arg = "-D") then ATuple (Py.split1 "=" value)
          else AStr value in
        mret (args_append key value result)
    | None =>
        mret (args_append "extra_compile_args" (AStr value) result)
    end) w =
  (Ok (foldl (λ d entry, args_append entry.1 entry.2 d) result entries), w).
Proof.
  intros Hentries%mapM_Some. revert result.
  induction Hentries as [|token entry tokens entries Hentry _ IH]; intros result.
  - reflexivity.
  - simpl fold_each.
    rewrite (bind_ok _ _ _ _ _ (classify_token_run token entry result w Hentry)).
    apply IH.
Qed.

(** When the lookup succeeds, each token is filed under the entry its first
    two characters select; what is filed is the rest of the token, also for a
    token that starts with none of the five flags. *)
Lemma pkg_config_lookup_succeeded packages default_libraries executable w
    output e' entries :
  subprocess_run (env w) (pkg_config_command packages executable) =
    (Completed output 0, e') →
  mapM token_entry (Py.split_ws (Py.strip output)) = Some entries →
  pkg_config packages default_libraries executable w =
  (Ok (foldl (λ d entry, args_append entry.1 entry.2 d) ∅ entries),
   with_env (λ _, e') w).
Proof.
  intros Hrun Hentries. unfold pkg_config, run_process.
  fold (pkg_config_command packages executable).
  rewrite bind_run, Hrun. rewrite bool_decide_false by (intros Hne; by apply Hne).
  by apply classify_tokens_run.
Qed.

(** ** The claims about [get_package_info] *)

(** C1. For every source directory [get_package_info] returns a dictionary
    with exactly the four keys [ext_modules], [packages], [package_dir] and
    [package_data]; the entry [packages] is the list [find_packages] returns
    for that directory, and [package_dir] maps the empty string to [srcdir]
    when [srcdir] is not ["."] and is empty when it is. *)
Theorem get_package_info_keys srcdir exclude w :
  ∃ info w' pk w_found exts data,
    get_package_info srcdir exclude w = (Ok info, w') ∧
    dom info = ({["ext_modules"; "packages"; "package_dir"; "package_data"]}
                  : gset string) ∧
    find_packages srcdir exclude false w = (Ok pk, w_found) ∧
    info !! "packages" = Some (VPackages pk) ∧
    info !! "package_dir" =
      Some (VPackageDir (if decide (srcdir = ".") then ∅ else {[ "" := srcdir ]})) ∧
    info !! "ext_modules" = Some (VExtensions exts) ∧
    info !! "package_data" = Some (VPackageData data).
Proof.
  rewrite get_package_info_run, find_packages_run.
  eexists _, _, _, _, _, _. split; [reflexivity|].
  unfold package_info_of. split; [|split; [reflexivity|]].
  { rewrite !dom_insert_L, dom_singleton_L. set_solver. }
  split; [by simplify_map_eq|].
  split; [|split; by simplify_map_eq].
  simplify_map_eq. do 2 f_equal. case_bool_decide; by case_decide.
Qed.

(** C7. The [package_data] entry is the [package_data] of [setup.cfg] (empty
    when the file or the option is absent), updated with what
    [get_package_data()] returns for each [setup_package.py] module in
    iteration order: for every key the entry of the last module that has one
    wins, and the configured entry stays when no module has one. *)
Theorem package_data_merged srcdir exclude w :
  ∃ info w' pk modules,
    get_package_info srcdir exclude w = (Ok info, w') ∧
    info !! "packages" = Some (VPackages pk) ∧
    iter_setup_packages srcdir pk w = (Ok modules, w) ∧
    let configured := configured_package_data (env w) srcdir in
    let declared := omap get_package_data modules in
    info !! "package_data" =
      Some (VPackageData (foldl (λ d other, other ∪ d) configured declared)) ∧
    ∀ key,
      foldl (λ d other, other ∪ d) configured declared !! key =
      match latest_entry key declared with
      | Some files => Some files
      | None => configured !! key
      end.
Proof.
  rewrite get_package_info_run.
  eexists _, _, _, _. split; [reflexivity|].
  unfold package_info_of. split; [by simplify_map_eq|].
  split; [apply iter_setup_packages_run|].
  split; [by simplify_map_eq|].
  intros key. apply updated_with_lookup.
Qed.

(** C9. The [ext_modules] entry holds no extension named [skip_cython]:
    it is the declared extensions followed by the discovered ones, without
    those of that name and otherwise in the same order (each possibly with
    the linker flag appended, nothing else changed), followed by at most one
    further extension. *)
Theorem skip_cython_removed srcdir exclude w :
  ∃ info w' pk modules cython exts post extra,
    get_package_info srcdir exclude w = (Ok info, w') ∧
    info !! "packages" = Some (VPackages pk) ∧
    iter_setup_packages srcdir pk w = (Ok modules, w) ∧
    get_cython_extensions srcdir pk (declared_extensions modules)
      (Some ["numpy"]) w = (Ok cython, w) ∧
    info !! "ext_modules" = Some (VExtensions exts) ∧
    Forall (λ ext, name ext ≠ "skip_cython") exts ∧
    exts =
      (post <$> filter (λ ext, name ext ≠ "skip_cython")
                  (declared_extensions modules ++ cython)) ++ extra ∧
    (∀ ext, name (post ext) = name ext ∧ sources (post ext) = sources ext ∧
            include_dirs (post ext) = include_dirs ext) ∧
    length extra ≤ 1.
Proof.
  rewrite get_package_info_run.
  set (c := collect srcdir w).
  set (post := if bool_decide (c_compiler c = "msvc")
               then append_link_arg "/MANIFEST" else id).
  assert (Hpost : ∀ ext, name (post ext) = name ext ∧
                         sources (post ext) = sources ext ∧
                         include_dirs (post ext) = include_dirs ext).
  { intros ext. unfold post. by case_bool_decide. }
  assert (Hlinked : linked_extensions c = post <$> kept_extensions c).
  { unfold linked_extensions, post. case_bool_decide; [done|].
    by rewrite list_fmap_id. }
  exists (package_info_of srcdir w), (after_get_package_info srcdir exclude w),
    (c_packages c), (c_modules c), (c_cython c), (final_extensions c), post,
    (match linked_extensions c with
     | [] => []
     | _ => compiler_version_extension <$> option_list (Py.min_by_len (c_packages c))
     end).
  split; [reflexivity|].
  unfold package_info_of. fold c.
  split; [by simplify_map_eq|].
  split; [apply iter_setup_packages_run|].
  split; [apply get_cython_extensions_run|].
  split; [by simplify_map_eq|].
  assert (Hfinal : final_extensions c =
    (post <$> kept_extensions c) ++
    match linked_extensions c with
    | [] => []
    | _ => compiler_version_extension <$> option_list (Py.min_by_len (c_packages c))
    end).
  { unfold final_extensions. rewrite <- Hlinked.
    destruct (linked_extensions c); [done|reflexivity]. }
  split; [|split; [exact Hfinal|split; [exact Hpost|]]].
  - rewrite Hfinal. apply Forall_app. split.
    + apply Forall_fmap, Forall_forall. intros ext Hext.
      apply list_elem_of_filter in Hext as [Hname _]. simpl.
      by rewrite (proj1 (Hpost ext)).
    + destruct (linked_extensions c); [constructor|].
      destruct (Py.min_by_len (c_packages c)); [|constructor].
      constructor; [|constructor]. apply compiler_version_not_marker.
  - destruct (linked_extensions c); [simpl; lia|].
    destruct (Py.min_by_len (c_packages c)); simpl; lia.
Qed.

(** C10. When the extension list is non-empty once the [skip_cython] entries
    are gone, exactly one extension is appended, named after the first of the
    shortest package names with [.compiler_version] added, and [compiler.c]
    is copied into that package; when the list is empty nothing is appended
    and the environment is left as it was. *)
Theorem compiler_version_added srcdir exclude w :
  ∃ info w' pk modules cython exts,
    get_package_info srcdir exclude w = (Ok info, w') ∧
    info !! "packages" = Some (VPackages pk) ∧
    iter_setup_packages srcdir pk w = (Ok modules, w) ∧
    get_cython_extensions srcdir pk (declared_extensions modules)
      (Some ["numpy"]) w = (Ok cython, w) ∧
    info !! "ext_modules" = Some (VExtensions exts) ∧
    let kept :=
      filter (λ ext, name ext ≠ "skip_cython")
        (declared_extensions modules ++ cython) in
    (kept ≠ [] →
       ∃ p shorter_after longer_before collected,
         pk = longer_before ++ p :: shorter_after ∧
         Forall (λ q, String.length p < String.length q) longer_before ∧
         Forall (λ q, String.length p ≤ String.length q) shorter_after ∧
         exts = collected ++
                [new_Extension (p +:+ ".compiler_version")
                   [os_path_join p ["_compiler.c"]] None] ∧
         name <$> collected = name <$> kept ∧
         env w' = compiler_copied srcdir p (env w)) ∧
    (kept = [] → exts = [] ∧ env w' = env w).
Proof.
  rewrite get_package_info_run.
  set (c := collect srcdir w).
  exists (package_info_of srcdir w), (after_get_package_info srcdir exclude w),
    (c_packages c), (c_modules c), (c_cython c), (final_extensions c).
  split; [reflexivity|].
  unfold package_info_of. fold c.
  split; [by simplify_map_eq|].
  split; [apply iter_setup_packages_run|].
  split; [apply get_cython_extensions_run|].
  split; [by simplify_map_eq|].
  change (filter _ (declared_extensions (c_modules c) ++ c_cython c))
    with (kept_extensions c).
  pose proof (linked_extensions_nil c) as Hnil.
  pose proof (collected_needs_packages srcdir w) as Hneeds. fold c in Hneeds.
  unfold after_get_package_info, final_extensions. fold c.
  split.
  - intros Hkept.
    destruct (linked_extensions c) as [|ext exts] eqn:Hlinked.
    { by destruct Hkept, (proj1 Hnil). }
    destruct (min_by_len_is_Some (c_packages c)) as [p Hp].
    { intros Hpk. by specialize (Hneeds Hpk). }
    rewrite Hp. destruct (min_by_len_spec _ _ Hp) as (l1 & l2 & Hl & H1 & H2).
    exists p, l2, l1, (ext :: exts).
    split; [exact Hl|]. split; [exact H1|]. split; [exact H2|].
    split; [reflexivity|]. split.
    + rewrite <- Hlinked. unfold linked_extensions.
      case_bool_decide; [|done].
      rewrite <- list_fmap_compose. by apply list_fmap_ext.
    + change (env (with_env ?f ?w0)) with (f (env w0)).
      by rewrite env_before_copy.
  - intros Hkept. apply Hnil in Hkept. rewrite Hkept.
    split; [reflexivity|]. apply env_before_copy.
Qed.

(** ** The claims about Cython discovery *)

(** C2. No source file is registered twice: [get_cython_extensions] returns,
    and no extension it returns has a [.pyx] source whose real path, extension
    stripped, is that of a [.pyx], [.c] or [.cpp] source of a previously
    declared extension. *)
Theorem no_double_registration srcdir packages prevextensions extincludedirs w :
  ∃ exts,
    get_cython_extensions srcdir packages prevextensions extincludedirs w =
      (Ok exts, w) ∧
    ∀ ext s prev s',
      ext ∈ exts →
      s ∈ sources ext →
      Py.endswith s ".pyx" = true →
      prev ∈ prevextensions →
      s' ∈ sources prev →
      Py.endswith_any s' [".pyx"; ".c"; ".cpp"] = true →
      os_path_realpath (env w) (os_path_splitext s).1 ≠
      os_path_realpath (env w) (os_path_splitext s').1.
Proof.
  eexists. split; [apply get_cython_extensions_run|].
  intros ext s prev s' Hext Hs _ Hprev Hs' Hsuffix.
  unfold undeclared_pyx_extensions in Hext.
  apply list_elem_of_bind in Hext as (package_name & Hext & _).
  apply list_elem_of_bind in Hext as (fn & Hext & Hfn).
  apply list_elem_of_filter in Hfn as [[_ Hfresh] _].
  apply list_elem_of_singleton in Hext as ->. simpl in Hs.
  apply list_elem_of_singleton in Hs as ->.
  intros Hsame. apply Hfresh. unfold covered.
  apply list_elem_of_fmap. exists s'. split; [exact Hsame|].
  unfold declared_sources. apply list_elem_of_bind.
  exists prev. split; [|exact Hprev].
  by apply list_elem_of_filter.
Qed.

(** C3. Discovery adds, for every package of the list and every file ending
    in [.pyx] that lies directly in the package's directory and is not covered
    by a declared extension, exactly one extension: its name is the package
    name, a dot, and the file name without [.pyx]; its [include_dirs] is
    [extincludedirs].  Nothing else is added. *)
Theorem cython_discovery srcdir packages prevextensions extincludedirs w :
  get_cython_extensions srcdir packages prevextensions extincludedirs w =
    (Ok (package_name ← packages;
         fn ← filter
                (λ fn, Py.endswith fn ".pyx" = true ∧
                       ¬ covered (env w) prevextensions
                           (path_of_file (env w)
                              (package_directory srcdir package_name) fn))
                (files_directly_in (env w) (package_directory srcdir package_name));
         [ {| name := package_name +:+ "." +:+ Py.slice_to_neg 4 fn;
              sources := [path_of_file (env w)
                            (package_directory srcdir package_name) fn];
              include_dirs := extincludedirs;
              extra_link_args := [] |} ]), w) ∧
  (∀ stem, Py.endswith (stem +:+ ".pyx") ".pyx" = true ∧
           Py.slice_to_neg 4 (stem +:+ ".pyx") = stem) ∧
  (∀ dir, files_directly_in (env w) dir =
          match walk_skip_hidden (env w) dir with
          | [] => []
          | (_, _, filenames) :: _ => filenames
          end).
Proof.
  split; [apply get_cython_extensions_run|]. split.
  - intros stem. split.
    + apply endswith_append.
    + apply (slice_to_neg_append stem ".pyx").
  - intros dir. unfold files_directly_in, top_directory.
    by destruct (walk_skip_hidden (env w) dir) as [|[[? ?] ?] ?].
Qed.

(** ** The claims about the module state *)

(** C4. [find_packages] memoizes: whatever call was made first, the cache
    then holds the list it returned; every later call with
    [invalidate_cache=False] returns that list, whatever [where] and
    [exclude] are and whatever other calls came in between, as long as none
    asked for invalidation; a call with [invalidate_cache=True] runs the
    search again and the cache holds its result. *)
Theorem find_packages_memoized where_ exclude invalidate_cache w :
  ∃ pk w1,
    find_packages where_ exclude invalidate_cache w = (Ok pk, w1) ∧
    package_cache (ms w1) = Some pk ∧
    (invalidate_cache = true →
       pk = setuptools_find_packages (env w) where_
              (elements (exclude_packages (ms w)))) ∧
    ∀ calls where' exclude',
      Forall (λ c, invalidates c = false) calls →
      ∃ w3,
        find_packages where' exclude' false (exec_all calls w1) = (Ok pk, w3) ∧
        package_cache (ms w3) = Some pk.
Proof.
  rewrite find_packages_run. eexists _, _. split; [reflexivity|].
  split; [reflexivity|]. split.
  { intros ->. reflexivity. }
  intros calls where' exclude' Hcalls.
  set (w1 := after_find_packages where_ exclude invalidate_cache w).
  assert (Hcache : package_cache (ms (exec_all calls w1)) =
                   Some (found_packages where_ invalidate_cache w)).
  { by apply (exec_all_keeps_cache _ calls w1). }
  assert (Hfound : found_packages where' false (exec_all calls w1) =
                   found_packages where_ invalidate_cache w).
  { unfold found_packages at 1. by rewrite Hcache. }
  rewrite find_packages_run. eexists. rewrite Hfound. split; [reflexivity|].
  unfold after_find_packages. simpl. by rewrite Hfound.
Qed.

(** C5. [add_exclude_packages] raises [RuntimeError] exactly when the
    finalization flag is set, and every call of [find_packages] sets it.  When
    it does not raise it returns after adding the given names, and nothing
    else, to the exclusion set; when it raises, the state is as it was. *)
Theorem add_exclude_packages_guard excludes w :
  ((∃ msg w', add_exclude_packages excludes w = (Raise (RuntimeError msg), w')) ↔
   excludes_too_late (ms w) = true) ∧
  (excludes_too_late (ms w) = true → (add_exclude_packages excludes w).2 = w) ∧
  (excludes_too_late (ms w) = false →
     ∃ w', add_exclude_packages excludes w = (Ok (), w') ∧
       exclude_packages (ms w') = exclude_packages (ms w) ∪ list_to_set excludes ∧
       (∀ x, x ∈ exclude_packages (ms w') ↔
             x ∈ exclude_packages (ms w) ∨ x ∈ excludes) ∧
       w' = with_ms (set_exclude_packages (exclude_packages (ms w'))) w) ∧
  (∀ where_ exclude invalidate_cache,
     excludes_too_late (ms (find_packages where_ exclude invalidate_cache w).2) = true).
Proof.
  rewrite add_exclude_packages_run.
  destruct (excludes_too_late (ms w)) eqn:Hlate.
  - split; [|split; [done|split; [done|]]].
    + split; [done|]. intros _. by eexists _, _.
    + intros. by rewrite find_packages_run.
  - split; [|split; [done|split]].
    + split; [|done]. by intros (? & ? & [=]).
    + intros _. eexists. split; [reflexivity|]. simpl.
      split; [reflexivity|]. split; [|reflexivity].
      intros x. rewrite elem_of_union, elem_of_list_to_set. done.
    + intros. by rewrite find_packages_run.
Qed.

(** C8, amended.  The helper routines [iter_setup_packages],
    [iter_pyx_files], [get_cython_extensions] and [pkg_config] leave
    [_module_state] as it was; whatever call is made, the only entries of
    [_module_state] that can differ afterwards are the package cache, the
    exclusion set and the finalization flag. *)
Theorem module_state_frame (c : call) w :
  (is_helper_routine c = true → ms (exec c w) = ms w) ∧
  registered_commands (ms (exec c w)) = registered_commands (ms w) ∧
  have_sphinx (ms (exec c w)) = have_sphinx (ms w).
Proof.
  split.
  - destruct c; simpl; try done; intros _.
    + apply iter_setup_packages_same_ms.
    + apply iter_pyx_files_same_ms.
    + apply get_cython_extensions_same_ms.
    + apply pkg_config_same_ms.
  - apply (exec_frame same_outside_discovery (λ _, True)); [| | |done].
    + intros excludes. apply add_exclude_packages_frame; [apply _|].
      intros w' x. by split.
    + intros. apply find_packages_outside_discovery.
    + intros. apply find_packages_outside_discovery.
Qed.

(** ** More about [pkg_config] *)

Lemma flag_map_lookup (arg : string) :
  flag_map !! arg =
  if decide (arg = "-I") then Some "include_dirs"
  else if decide (arg = "-L") then Some "library_dirs"
  else if decide (arg = "-l") then Some "libraries"
  else if decide (arg = "-D") then Some "define_macros"
  else if decide (arg = "-U") then Some "undef_macros"
  else None.
Proof.
  unfold flag_map. repeat case_decide; subst; try reflexivity.
  by rewrite !lookup_insert_ne, lookup_singleton_ne.
Qed.

Lemma args_get_append (key key' : string) v (d : DistutilsExtensionArgs) :
  args_get key (args_append key' v d) =
  if decide (key = key') then args_get key d ++ [v] else args_get key d.
Proof.
  unfold args_append, args_get at 1. case_decide as Hkey.
  - subst. by rewrite lookup_insert_eq.
  - by rewrite lookup_insert_ne.
Qed.

Lemma args_get_entries (key : string) (entries : list (string * arg_value))
    (d : DistutilsExtensionArgs) :
  args_get key (foldl (λ d entry, args_append entry.1 entry.2 d) d entries) =
  args_get key d ++ (filter (λ entry, entry.1 = key) entries).*2.
Proof.
  revert d. induction entries as [|[key' v] entries IH]; intros d; simpl.
  - by rewrite app_nil_r.
  - rewrite IH, args_get_append, filter_cons. simpl.
    case_decide; case_decide; simplify_eq; simpl.
    + by rewrite <- (assoc_L (++)).
    + done.
Qed.

Lemma decode_ascii_Some b arg : Py.decode_ascii b = Some arg → arg = b.
Proof. unfold Py.decode_ascii. by destruct (Py.all_ascii b); intros [=]. Qed.

Lemma token_entry_decodable token :
  decodable token →
  ∃ value,
    fs_decode (Py.slice_from 2 token) = Some value ∧
    token_entry token =
      Some (match flag_map !! Py.slice_to 2 token with
            | Some key =>
                (key, if bool_decide (Py.slice_to 2 token = "-D")
                      then ATuple (Py.split1 "=" value) else AStr value)
            | None => ("extra_compile_args", AStr value)
            end).
Proof.
  intros [[arg Harg] [value Hvalue]]. exists value. split; [exact Hvalue|].
  unfold token_entry. rewrite Harg, Hvalue. simpl.
  by rewrite (decode_ascii_Some _ _ Harg).
Qed.

Lemma decodable_entries (tokens : list string) :
  Forall decodable tokens → is_Some (mapM token_entry tokens).
Proof.
  intros Htokens. apply mapM_is_Some. eapply Forall_impl; [exact Htokens|].
  intros token Htoken.
  destruct (token_entry_decodable _ Htoken) as (value & _ & Hentry).
  simpl. rewrite Hentry. by eexists.
Qed.

Lemma omap_cons_from_option {A B} (f : A → option B) x (l : list A) :
  omap f (x :: l) = from_option (λ y, y :: omap f l) (omap f l) (f x).
Proof. reflexivity. Qed.

(** The entries filed under one key are the tokens of one flag. *)
Lemma entries_of_flag (select : string * arg_value → Prop)
    `{!∀ entry, Decision (select entry)}
    (chosen : string → Prop) `{!∀ arg, Decision (chosen arg)}
    (wrap : string → arg_value) (tokens : list string) entries :
  (∀ token value,
     fs_decode (Py.slice_from 2 token) = Some value →
     ∀ entry, token_entry token = Some entry →
       (select entry ↔ chosen (Py.slice_to 2 token)) ∧
       (select entry → entry.2 = wrap value)) →
  Forall decodable tokens →
  mapM token_entry tokens = Some entries →
  (filter select entries).*2 =
  wrap <$> omap (λ token,
                   if bool_decide (chosen (Py.slice_to 2 token))
                   then fs_decode (Py.slice_from 2 token) else None) tokens.
Proof.
  intros Hselect Htokens Hentries%mapM_Some.
  induction Hentries as [|token entry tokens entries Hentry _ IH]; [done|].
  apply Forall_cons in Htokens as [Htoken Htokens].
  destruct (token_entry_decodable _ Htoken) as (value & Hvalue & _).
  destruct (Hselect token value Hvalue entry Hentry) as [Hiff Hwrap].
  rewrite filter_cons, omap_cons_from_option.
  case_decide as Hsel.
  - rewrite bool_decide_true by by apply Hiff.
    rewrite Hvalue. cbn [from_option]. rewrite !fmap_cons.
    by rewrite (Hwrap Hsel), (IH Htokens).
  - rewrite bool_decide_false by (intros ?; by apply Hsel, Hiff).
    cbn [from_option]. by apply IH.
Qed.

Lemma token_entry_cases token value entry :
  fs_decode (Py.slice_from 2 token) = Some value →
  token_entry token = Some entry →
  (Py.slice_to 2 token = "-I" ∧ entry = ("include_dirs", AStr value)) ∨
  (Py.slice_to 2 token = "-L" ∧ entry = ("library_dirs", AStr value)) ∨
  (Py.slice_to 2 token = "-l" ∧ entry = ("libraries", AStr value)) ∨
  (Py.slice_to 2 token = "-D" ∧
     entry = ("define_macros", ATuple (Py.split1 "=" value))) ∨
  (Py.slice_to 2 token = "-U" ∧ entry = ("undef_macros", AStr value)) ∨
  (flag_map !! Py.slice_to 2 token = None ∧
     entry = ("extra_compile_args", AStr value)).
Proof.
  intros Hvalue. unfold token_entry.
  destruct (Py.decode_ascii (Py.slice_to 2 token)) as [arg|] eqn:Harg; [|done].
  apply decode_ascii_Some in Harg as ->. rewrite Hvalue. simpl.
  intros [= <-]. rewrite flag_map_lookup.
  repeat case_decide; try case_bool_decide; try congruence; auto 10.
Qed.

(** X1. When [pkg-config] exits with code 0 and every token decodes, the
    dictionary [pkg_config] returns has, under each of the five named
    entries, the remainders of the tokens that start with its flag, in the
    order of the output ([-D] remainders cut at their first [=] into
    tuples), and under [extra_compile_args] the remainders of all other
    tokens; [default_libraries] plays no part. *)
Theorem pkg_config_files_by_flag packages default_libraries executable w output e' :
  subprocess_run (env w) (pkg_config_command packages executable) =
    (Completed output 0, e') →
  Forall decodable (Py.split_ws (Py.strip output)) →
  ∃ result,
    pkg_config packages default_libraries executable w =
      (Ok result, with_env (λ _, e') w) ∧
    let tokens := Py.split_ws (Py.strip output) in
    args_get "include_dirs" result = AStr <$> flagged "-I" tokens ∧
    args_get "library_dirs" result = AStr <$> flagged "-L" tokens ∧
    args_get "libraries" result = AStr <$> flagged "-l" tokens ∧
    args_get "undef_macros" result = AStr <$> flagged "-U" tokens ∧
    args_get "define_macros" result =
      (λ value, ATuple (Py.split1 "=" value)) <$> flagged "-D" tokens ∧
    args_get "extra_compile_args" result = AStr <$> unflagged tokens.
Proof.
  intros Hrun Htokens.
  destruct (decodable_entries _ Htokens) as [entries Hentries].
  eexists. split; [exact (pkg_config_lookup_succeeded _ _ _ _ _ _ _ Hrun Hentries)|].
  assert (Hflag : ∀ key flag wrap,
    (∀ token value entry,
       fs_decode (Py.slice_from 2 token) = Some value →
       token_entry token = Some entry →
       (entry.1 = key ↔ Py.slice_to 2 token = flag) ∧
       (entry.1 = key → entry.2 = wrap value)) →
    args_get key (foldl (λ d entry, args_append entry.1 entry.2 d) ∅ entries) =
    wrap <$> flagged flag (Py.split_ws (Py.strip output))).
  { intros key flag wrap Hselect. rewrite args_get_entries.
    unfold args_get at 1, flagged. rewrite lookup_empty. simpl.
    refine (entries_of_flag (λ entry, entry.1 = key) (λ arg, arg = flag)
              wrap _ _ _ Htokens Hentries).
    intros token value Hvalue entry Hentry. by apply Hselect. }
  cbv zeta. repeat split.
  1-5: apply Hflag; intros token value entry Hvalue Hentry;
    destruct (token_entry_cases _ _ _ Hvalue Hentry)
      as [[Harg ->]|[[Harg ->]|[[Harg ->]|[[Harg ->]|[[Harg ->]|[Harg ->]]]]]];
    simpl; rewrite ?Harg;
    (split; [split; intros Heq; try done; try discriminate Heq;
             rewrite Heq in Harg; vm_compute in Harg; discriminate Harg
            |intros Heq; try done; discriminate Heq]).
  rewrite args_get_entries. unfold args_get at 1, unflagged.
  rewrite lookup_empty. simpl.
  refine (entries_of_flag (λ entry, entry.1 = "extra_compile_args")
            (λ arg, flag_map !! arg = None) AStr _ _ _ Htokens Hentries).
  intros token value Hvalue entry Hentry.
  destruct (token_entry_cases _ _ _ Hvalue Hentry)
    as [[Harg ->]|[[Harg ->]|[[Harg ->]|[[Harg ->]|[[Harg ->]|[Harg ->]]]]]];
    simpl; rewrite ?Harg;
    (split; [split; intros Heq; try done; try discriminate Heq;
             vm_compute in Heq; discriminate Heq
            |intros Heq; try done; discriminate Heq]).
Qed.

Lemma token_entry_None_run (token : string) (result : DistutilsExtensionArgs) w :
  token_entry token = None →
  (arg ← or_raise UnicodeDecodeError (Py.decode_ascii (Py.slice_to 2 token));
   value ← or_raise UnicodeDecodeError (fs_decode (Py.slice_from 2 token));
   match flag_map !! arg with
   | Some key =>
       let value :=
         if bool_decide (arg = "-D") then ATuple (Py.split1 "=" value)
         else AStr value in
       mret (args_append key value result)
   | None =>
       mret (args_append "extra_compile_args" (AStr value) result)
   end) w =
  (Raise UnicodeDecodeError, w).
Proof.
  unfold token_entry. intros Hentry.
  destruct (Py.decode_ascii (Py.slice_to 2 token)) as [arg|]; [|reflexivity].
  destruct (fs_decode (Py.slice_from 2 token)) as [value|]; [done|reflexivity].
Qed.

Lemma token_entry_undecodable token : ¬ decodable token → token_entry token = None.
Proof.
  unfold decodable, token_entry. intros Hnot.
  destruct (Py.decode_ascii (Py.slice_to 2 token)) as [arg|]; [|done].
  destruct (fs_decode (Py.slice_from 2 token)) as [value|]; [|done].
  destruct Hnot. by split; eexists.
Qed.

(** X2. When [pkg-config] exits with code 0 and some token cannot be
    decoded, [pkg_config] raises [UnicodeDecodeError]: no dictionary is
    returned, nothing is logged, and what the process did stays done. *)
Theorem pkg_config_undecodable packages default_libraries executable w output e' :
  subprocess_run (env w) (pkg_config_command packages executable) =
    (Completed output 0, e') →
  Exists (λ token, ¬ decodable token) (Py.split_ws (Py.strip output)) →
  pkg_config packages default_libraries executable w =
    (Raise UnicodeDecodeError, with_env (λ _, e') w).
Proof.
  intros Hrun Htokens. unfold pkg_config, run_process.
  fold (pkg_config_command packages executable).
  rewrite bind_run, Hrun. rewrite bool_decide_false by (intros Hne; by apply Hne).
  generalize (∅ : DistutilsExtensionArgs).
  induction Htokens as [token tokens Htoken|token tokens _ IH]; intros result.
  - simpl fold_each.
    rewrite bind_run, (token_entry_None_run _ _ _ (token_entry_undecodable _ Htoken)).
    reflexivity.
  - simpl fold_each. destruct (token_entry token) as [entry|] eqn:Hentry.
    + rewrite (bind_ok _ _ _ _ _ (classify_token_run token entry result _ Hentry)).
      apply IH.
    + by rewrite bind_run, (token_entry_None_run _ _ _ Hentry).
Qed.

(** X3. When the lookup fails, by a nonzero return code or by
    [CalledProcessError], [pkg_config] does not raise: it logs one warning
    and returns a dictionary whose only entry is [libraries], holding
    [default_libraries] (an empty list when there are none). *)
Theorem pkg_config_failure packages default_libraries executable w run e' :
  subprocess_run (env w) (pkg_config_command packages executable) = (run, e') →
  match run with
  | Completed _ returncode => returncode ≠ 0%Z
  | CalledProcessError _ _ _ => True
  end →
  ∃ message,
    pkg_config packages default_libraries executable w =
      (Ok {[ "libraries" := AStr <$> default_libraries ]},
       with_distutils_log (λ l, l ++ [message]) (with_env (λ _, e') w)).
Proof.
  intros Hrun Hfailed. destruct run as [output returncode|cmd returncode output].
  - by apply (pkg_config_lookup_failed _ _ _ _ output returncode).
  - unfold pkg_config, run_process.
    fold (pkg_config_command packages executable).
    rewrite bind_run, Hrun. eexists. reflexivity.
Qed.

Lemma split1_go_length sep cur s :
  length (Py.split1_go sep cur s) = 1 ∨ length (Py.split1_go sep cur s) = 2.
Proof.
  revert cur. induction s as [|a s IH]; intros cur; simpl; [by left|].
  case_decide; [by right|apply IH].
Qed.

Lemma shaped_extend key values (d : DistutilsExtensionArgs) :
  key ∈ extension_arguments → Forall (fits key) values → shaped d →
  shaped (args_extend key values d).
Proof.
  intros Hkey Hvalues [Hdom Hfit]. unfold args_extend, args_get. split.
  - rewrite dom_insert. apply union_least; [by apply singleton_subseteq_l|done].
  - intros key' values'. rewrite lookup_insert. case_decide as Heq.
    + subst. intros [= <-]. apply Forall_app. split; [|done].
      destruct (d !! key') as [old|] eqn:Hold; simpl; [by eapply Hfit|constructor].
    + apply Hfit.
Qed.

Lemma fold_each_invariant {A S} (P : S → Prop) (l : list A) (body : S → A → M S) :
  (∀ s x w s' w', P s → body s x w = (Ok s', w') → P s') →
  ∀ s w r w', P s → fold_each l s body w = (Ok r, w') → P r.
Proof.
  intros Hbody. induction l as [|x l IH]; intros s w r w' Hs; simpl.
  - by intros [<- _]%Ok_pair_inj.
  - rewrite bind_run. destruct (body s x w) as [[s'|?] w1] eqn:Hstep; [|done].
    apply IH. by eapply Hbody.
Qed.

(** X4. Whatever [pkg-config] prints, a dictionary [pkg_config] returns has
    no key outside the six its docstring lists; the values under
    [define_macros] are tuples of one or two strings and all other values are
    strings. *)
Theorem pkg_config_result_shape packages default_libraries executable w result w' :
  pkg_config packages default_libraries executable w = (Ok result, w') →
  dom result ⊆ extension_arguments ∧
  ∀ key values, result !! key = Some values → Forall (fits key) values.
Proof.
  assert (Hempty : shaped ∅).
  { split; [by rewrite dom_empty|]. intros key values. by rewrite lookup_empty. }
  assert (Hdefault : shaped (args_extend "libraries" (AStr <$> default_libraries) ∅)).
  { apply shaped_extend; [compute_done| |done].
    apply Forall_fmap, Forall_forall. intros library _. simpl. done. }
  unfold pkg_config, run_process. rewrite bind_run.
  destruct (subprocess_run _ _) as [[output returncode|cmd returncode output] e'].
  - case_bool_decide.
    + by intros [<- _]%Ok_pair_inj.
    + apply (fold_each_invariant shaped); [|done].
      clear. intros result token w result' w' Hshaped.
      destruct (token_entry token) as [entry|] eqn:Hentry.
      * rewrite (classify_token_run _ _ _ _ Hentry).
        intros [<- _]%Ok_pair_inj.
        unfold token_entry in Hentry.
        destruct (Py.decode_ascii (Py.slice_to 2 token)) as [arg|]; [|done].
        destruct (fs_decode (Py.slice_from 2 token)) as [value|] eqn:Hvalue;
          [|done].
        simpl in Hentry. injection Hentry as <-.
        rewrite flag_map_lookup.
        repeat case_decide; try case_bool_decide; try congruence; simpl;
          (apply (shaped_extend _ [_]); [compute_done| |done]);
          (constructor; [|constructor]); simpl; try done.
        split; [done|]. apply split1_go_length.
      * by rewrite (token_entry_None_run _ _ _ Hentry).
  - by intros [<- _]%Ok_pair_inj.
Qed.

(** ** More about the module state *)

#[local] Instance exclusions_frozen_preorder : PreOrder (@exclusions_frozen Env).
Proof.
  split.
  - intros w Hlate. by split.
  - intros w1 w2 w3 H12 H23 Hlate.
    destruct (H12 Hlate) as [Hlate2 Hsame2].
    destruct (H23 Hlate2) as [Hlate3 Hsame3].
    split; [done|congruence].
Qed.

#[local] Instance exclusions_frozen_invariant : MsInvariant (@exclusions_frozen Env).
Proof. intros w w' Hms Hlate. by rewrite Hms. Qed.

Lemma exec_exclusions_frozen (c : call) w : exclusions_frozen w (exec c w).
Proof.
  apply (exec_frame exclusions_frozen (λ _, True)); [| | |done].
  - intros excludes w' Hlate. rewrite add_exclude_packages_run, Hlate. by split.
  - intros where_ exclude. apply find_packages_frame. intros w' Hlate.
    unfold after_find_packages, warned_about_exclude. by case_bool_decide.
  - intros where_ exclude _. apply find_packages_frame. intros w' Hlate.
    unfold after_find_packages, warned_about_exclude. by case_bool_decide.
Qed.

(** X5. Once exclusion is finalized, no sequence of calls of the module
    changes the exclusion set or clears the flag: every later
    [add_exclude_packages] raises [RuntimeError] and leaves the state as it
    found it. *)
Theorem exclusions_stay_frozen (calls : list call) excludes w :
  excludes_too_late (ms w) = true →
  excludes_too_late (ms (exec_all calls w)) = true ∧
  exclude_packages (ms (exec_all calls w)) = exclude_packages (ms w) ∧
  ∃ msg,
    add_exclude_packages excludes (exec_all calls w) =
      (Raise (RuntimeError msg), exec_all calls w).
Proof.
  intros Hlate.
  assert (Hfrozen : exclusions_frozen w (exec_all calls w)).
  { clear Hlate. revert w. induction calls as [|c calls IH]; intros w.
    - reflexivity.
    - etrans; [apply (exec_exclusions_frozen c)|apply IH]. }
  destruct (Hfrozen Hlate) as [Hlate' Hsame].
  split; [done|]. split; [done|].
  rewrite add_exclude_packages_run, Hlate'. by eexists.
Qed.

Lemma ms_after_get_package_info srcdir exclude w :
  ms (after_get_package_info srcdir exclude w) =
  set_package_cache (Some (found_packages srcdir false w))
    (set_excludes_too_late true (ms w)).
Proof.
  unfold after_get_package_info.
  assert (Hms : ms (add_options (declared_options (c_modules (collect srcdir w)))
                      (after_find_packages srcdir exclude false
                         (warned_about_exclude exclude w))) =
                set_package_cache (Some (found_packages srcdir false w))
                  (set_excludes_too_late true (ms w))).
  { unfold add_options, after_find_packages. simpl.
    rewrite found_packages_warned.
    unfold warned_about_exclude. by case_bool_decide. }
  destruct (linked_extensions _); [exact Hms|].
  destruct (Py.min_by_len _); exact Hms.
Qed.

(** X6. [get_package_info] finalizes exclusion: a call of
    [add_exclude_packages] that comes after it raises [RuntimeError] and
    changes nothing, whatever the source directory held. *)
Theorem add_exclude_packages_too_late srcdir exclude excludes w :
  ∃ info w' msg,
    get_package_info srcdir exclude w = (Ok info, w') ∧
    add_exclude_packages excludes w' = (Raise (RuntimeError msg), w').
Proof.
  rewrite get_package_info_run. eexists _, _, _. split; [reflexivity|].
  rewrite add_exclude_packages_run, ms_after_get_package_info. reflexivity.
Qed.

(** X7. The [exclude] argument of [find_packages] has no effect on the
    search: the list returned and the state left are those of a call with
    an empty [exclude], except that a non-empty one adds one deprecation
    warning. *)
Theorem find_packages_ignores_exclude where_ exclude invalidate_cache w :
  ∃ pk w1 w0,
    find_packages where_ exclude invalidate_cache w = (Ok pk, w1) ∧
    find_packages where_ [] invalidate_cache w = (Ok pk, w0) ∧
    warnings w0 = warnings w ∧
    w1 = with_warnings
           (λ l, l ++ if bool_decide (exclude = []) then [] else [deprecation]) w0.
Proof.
  rewrite !find_packages_run. eexists _, _, _.
  split; [reflexivity|]. split; [reflexivity|]. split; [reflexivity|].
  unfold after_find_packages, warned_about_exclude, with_warnings, with_ms.
  simpl. try rewrite bool_decide_false by (intros Hne; by apply Hne).
  destruct w as [st e opts warns logs]. simpl.
  case_bool_decide as Hex; case_bool_decide as Hex'; try done; simpl.
  by rewrite app_nil_r.
Qed.

Lemma after_get_package_info_exclude srcdir exclude w :
  after_get_package_info srcdir exclude w =
  with_warnings
    (λ l, l ++ if bool_decide (exclude = []) then [] else [deprecation; deprecation])
    (after_get_package_info srcdir [] w).
Proof.
  unfold after_get_package_info.
  assert (Hbefore :
    add_options (declared_options (c_modules (collect srcdir w)))
      (after_find_packages srcdir exclude false (warned_about_exclude exclude w)) =
    with_warnings
      (λ l, l ++ if bool_decide (exclude = []) then [] else [deprecation; deprecation])
      (add_options (declared_options (c_modules (collect srcdir w)))
         (after_find_packages srcdir [] false (warned_about_exclude [] w)))).
  { unfold add_options, after_find_packages. rewrite !found_packages_warned.
    unfold warned_about_exclude, with_warnings, with_ms, with_command_options.
    simpl. try rewrite bool_decide_false by (intros Hne; by apply Hne).
    destruct w as [st e opts warns logs]. simpl.
    case_bool_decide as Hex; case_bool_decide as Hex'; try done; simpl.
    - by rewrite <- (assoc_L (++)).
    - by rewrite app_nil_r. }
  rewrite Hbefore.
  destruct (linked_extensions _); [reflexivity|].
  destruct (Py.min_by_len _); reflexivity.
Qed.

(** X8. The [exclude] argument of [get_package_info] does not reach the
    result: the dictionary returned and the state left are those of a call
    with an empty [exclude], except that a non-empty one adds the deprecation
    warning twice, once from [get_package_info] and once from
    [find_packages]. *)
Theorem get_package_info_ignores_exclude srcdir exclude w :
  ∃ info w1 w0,
    get_package_info srcdir exclude w = (Ok info, w1) ∧
    get_package_info srcdir [] w = (Ok info, w0) ∧
    warnings w0 = warnings w ∧
    w1 = with_warnings
           (λ l, l ++ if bool_decide (exclude = []) then []
                      else [deprecation; deprecation]) w0.
Proof.
  rewrite !get_package_info_run. eexists _, _, _.
  split; [reflexivity|]. split; [reflexivity|].
  split; [|apply after_get_package_info_exclude].
  unfold after_get_package_info.
  assert (Hwarn : ∀ options,
    warnings (add_options options
                (after_find_packages srcdir [] false (warned_about_exclude [] w))) =
    warnings w).
  { intros options. unfold add_options, after_find_packages, warned_about_exclude.
    simpl. try rewrite bool_decide_false by (intros Hne; by apply Hne). done. }
  destruct (linked_extensions _); [apply Hwarn|].
  destruct (Py.min_by_len _); apply Hwarn.
Qed.

(** X9. Exclusions accumulate: before finalization, excluding [xs] and then
    [ys] succeeds twice and leaves the state that excluding [xs ++ ys] at once
    leaves, and the order of the two calls does not matter. *)
Theorem add_exclude_packages_accumulates xs ys w :
  excludes_too_late (ms w) = false →
  ∃ w1 w2,
    add_exclude_packages xs w = (Ok (), w1) ∧
    add_exclude_packages ys w1 = (Ok (), w2) ∧
    add_exclude_packages (xs ++ ys) w = (Ok (), w2) ∧
    (add_exclude_packages xs (add_exclude_packages ys w).2).2 = w2.
Proof.
  intros Hlate. rewrite !add_exclude_packages_run, Hlate. eexists _, _.
  split; [reflexivity|]. simpl. rewrite !add_exclude_packages_run. simpl.
  rewrite !Hlate. split; [reflexivity|].
  destruct w as [[rc hs cache excl late] e opts warns logs]. simpl.
  unfold with_ms, set_exclude_packages. simpl.
  assert (Hboth : excl ∪ list_to_set xs ∪ list_to_set ys =
                  excl ∪ list_to_set (xs ++ ys)).
  { by rewrite list_to_set_app_L, (assoc_L (∪)). }
  assert (Hswap : excl ∪ list_to_set ys ∪ list_to_set xs =
                  excl ∪ list_to_set xs ∪ list_to_set ys).
  { rewrite <- !(assoc_L (∪)). f_equal. apply (comm_L (∪)). }
  by rewrite Hboth, Hswap, Hboth.
Qed.

(** X10. The package list outlives the source directory: a second call of
    [get_package_info], for whatever directory, returns under [packages] the
    list the first call returned. *)
Theorem get_package_info_reuses_packages srcdir1 exclude1 srcdir2 exclude2 w :
  ∃ info1 w1 info2 w2 pk,
    get_package_info srcdir1 exclude1 w = (Ok info1, w1) ∧
    get_package_info srcdir2 exclude2 w1 = (Ok info2, w2) ∧
    info1 !! "packages" = Some (VPackages pk) ∧
    info2 !! "packages" = Some (VPackages pk).
Proof.
  rewrite get_package_info_run. eexists _, _. rewrite get_package_info_run.
  eexists _, _, _. split; [reflexivity|]. split; [reflexivity|].
  unfold package_info_of. split; [by simplify_map_eq|].
  simplify_map_eq. do 2 f_equal. simpl.
  unfold found_packages at 1. by rewrite ms_after_get_package_info.
Qed.

(** ** More about discovery and aggregation *)

Lemma declared_sources_app (l1 l2 : list Extension) :
  declared_sources (l1 ++ l2) = declared_sources l1 ++ declared_sources l2.
Proof. unfold declared_sources. apply bind_app. Qed.

Lemma bind_nil_iff {A B} (f : A → list B) (l : list A) :
  (∀ x, x ∈ l → f x = []) → l ≫= f = [].
Proof.
  intros Hf. induction l as [|x l IH]; [done|].
  rewrite bind_cons, Hf, IH; [done| |by left].
  intros y Hy. apply Hf. by right.
Qed.

(** X11. Discovery is idempotent: when the paths it gives to [.pyx] files
    still end in [.pyx], running it again with the extensions it returned
    added to the declared ones returns no extension. *)
Theorem cython_discovery_idempotent srcdir packages prevextensions extincludedirs w :
  (∀ package_name fn,
     package_name ∈ packages →
     fn ∈ files_directly_in (env w) (package_directory srcdir package_name) →
     Py.endswith fn ".pyx" = true →
     Py.endswith
       (path_of_file (env w) (package_directory srcdir package_name) fn)
       ".pyx" = true) →
  ∃ exts,
    get_cython_extensions srcdir packages prevextensions extincludedirs w =
      (Ok exts, w) ∧
    get_cython_extensions srcdir packages (prevextensions ++ exts)
      extincludedirs w = (Ok [], w).
Proof.
  intros Hpaths. rewrite get_cython_extensions_run.
  eexists. split; [reflexivity|].
  rewrite get_cython_extensions_run. do 2 f_equal.
  set (exts := undeclared_pyx_extensions _ _ _ prevextensions _).
  unfold undeclared_pyx_extensions at 1.
  apply bind_nil_iff. intros package_name Hpackage. cbv zeta.
  apply bind_nil_iff. intros fn [[Hpyx Hfresh] Hfn]%list_elem_of_filter.
  destruct Hfresh. unfold covered. rewrite declared_sources_app, fmap_app.
  apply elem_of_app.
  destruct (decide (covered (env w) prevextensions
              (path_of_file (env w) (package_directory srcdir package_name) fn)))
    as [Hcovered|Hnew]; [by left|right].
  apply list_elem_of_fmap. eexists. split; [reflexivity|].
  unfold declared_sources. apply list_elem_of_bind.
  exists {| name := package_name +:+ "." +:+ Py.slice_to_neg 4 fn;
            sources := [path_of_file (env w)
                          (package_directory srcdir package_name) fn];
            include_dirs := extincludedirs;
            extra_link_args := [] |}.
  split.
  - simpl. rewrite filter_cons, decide_True; [by left|].
    unfold Py.endswith_any. simpl. by rewrite (Hpaths _ _ Hpackage Hfn Hpyx).
  - unfold exts, undeclared_pyx_extensions. apply list_elem_of_bind.
    exists package_name. split; [|done]. cbv zeta.
    apply list_elem_of_bind. exists fn. split; [by left|].
    by apply list_elem_of_filter.
Qed.

Lemma command_options_after_get_package_info srcdir exclude w :
  command_options (after_get_package_info srcdir exclude w) =
  command_options w ++ declared_options (c_modules (collect srcdir w)).
Proof.
  unfold after_get_package_info.
  assert (Hoptions : ∀ options,
    command_options (add_options options
      (after_find_packages srcdir exclude false (warned_about_exclude exclude w))) =
    command_options w ++ options).
  { intros options. unfold add_options, after_find_packages, warned_about_exclude.
    simpl. by repeat case_bool_decide. }
  destruct (linked_extensions _); [apply Hoptions|].
  destruct (Py.min_by_len _); apply Hoptions.
Qed.

(** X12. A source tree without packages gives an empty build: no extension,
    the package data of [setup.cfg] alone, no option registered and nothing
    copied. *)
Theorem get_package_info_without_packages srcdir exclude w pk w_found :
  find_packages srcdir exclude false w = (Ok pk, w_found) →
  pk = [] →
  ∃ info w',
    get_package_info srcdir exclude w = (Ok info, w') ∧
    info !! "ext_modules" = Some (VExtensions []) ∧
    info !! "packages" = Some (VPackages []) ∧
    info !! "package_data" =
      Some (VPackageData (configured_package_data (env w) srcdir)) ∧
    command_options w' = command_options w ∧
    env w' = env w.
Proof.
  rewrite find_packages_run. intros [Hpk _]%Ok_pair_inj ->.
  rewrite get_package_info_run. eexists _, _. split; [reflexivity|].
  assert (Hpackages : c_packages (collect srcdir w) = []) by exact Hpk.
  assert (Hmodules : c_modules (collect srcdir w) = []).
  { unfold collect. simpl. by rewrite Hpk. }
  pose proof (collected_needs_packages srcdir w Hpackages) as Hlinked.
  unfold package_info_of, final_extensions.
  rewrite Hlinked, Hpackages, Hmodules.
  split; [by simplify_map_eq|]. split; [by simplify_map_eq|].
  split; [by simplify_map_eq|].
  rewrite command_options_after_get_package_info, Hmodules.
  split; [apply app_nil_r|].
  unfold after_get_package_info. rewrite Hlinked. apply env_before_copy.
Qed.


(** X14. [get_package_info] registers, module after module in iteration
    order, each build option of the module for the command [build] and then,
    for each external library of the module, the boolean option
    [use-system-<library>] for [build], [build_ext] and [install]; it
    registers nothing else. *)
Theorem get_package_info_registers_options srcdir exclude w :
  ∃ info w' pk modules,
    get_package_info srcdir exclude w = (Ok info, w') ∧
    info !! "packages" = Some (VPackages pk) ∧
    iter_setup_packages srcdir pk w = (Ok modules, w) ∧
    command_options w' =
      command_options w ++
      (m ← modules;
       ((λ o, mkCommandOption "build" (bo_name o) (bo_doc o) (bo_is_bool o))
          <$> default [] (get_build_options m)) ++
       (library ← default [] (get_external_libraries m);
        [ mkCommandOption "build" ("use-system-" +:+ library)
            ("Use the system " +:+ library +:+ " library") true;
          mkCommandOption "build_ext" ("use-system-" +:+ library)
            ("Use the system " +:+ library +:+ " library") true;
          mkCommandOption "install" ("use-system-" +:+ library)
            ("Use the system " +:+ library +:+ " library") true ])).
Proof.
  rewrite get_package_info_run. eexists _, _, _, _. split; [reflexivity|].
  unfold package_info_of. split; [by simplify_map_eq|].
  split; [apply iter_setup_packages_run|].
  apply command_options_after_get_package_info.
Qed.

(** X15. [DistutilsExtensionArgs.update] never replaces: after it, the list
    under every key is the list that was there followed by the lists [other]
    gives for that key, in the order of [other]; the keys are the old ones
    and those of [other]. *)
Theorem args_update_extends (other : list (string * list arg_value))
    (d : DistutilsExtensionArgs) key :
  args_get key (args_update other d) =
    args_get key d ++ concat (filter (λ item, item.1 = key) other).*2 ∧
  dom (args_update other d) = dom d ∪ list_to_set other.*1.
Proof.
  unfold args_update. revert d.
  induction other as [|[key' val] other IH]; intros d.
  - simpl. rewrite app_nil_r. split; [done|]. symmetry. apply (right_id_L ∅ (∪)).
  - simpl foldl. destruct (IH (args_extend key' val d)) as [Hget Hdom].
    rewrite Hget, Hdom. split.
    + rewrite filter_cons. unfold args_extend, args_get at 1. simpl.
      case_decide as Hkey.
      * subst. rewrite lookup_insert_eq. simpl.
        by rewrite <- (assoc_L (++)).
      * by rewrite lookup_insert_ne.
    + unfold args_extend. rewrite dom_insert_L. simpl.
      rewrite (assoc_L (∪)). f_equal. apply (comm_L (∪)).
Qed.

(** X16. Names excluded before the first search reach it: after
    [add_exclude_packages] on a state that is not finalized and has no cached
    list, [find_packages] calls the [setuptools] search with a duplicate-free
    list holding exactly the names excluded so far, and returns what that
    search returns. *)
Theorem exclusions_reach_search excludes where_ exclude invalidate_cache w :
  excludes_too_late (ms w) = false →
  package_cache (ms w) = None →
  ∃ w1 passed pk w2,
    add_exclude_packages excludes w = (Ok (), w1) ∧
    find_packages where_ exclude invalidate_cache w1 = (Ok pk, w2) ∧
    pk = setuptools_find_packages (env w) where_ passed ∧
    NoDup passed ∧
    ∀ x, x ∈ passed ↔ x ∈ exclude_packages (ms w) ∨ x ∈ excludes.
Proof.
  intros Hlate Hcache. rewrite add_exclude_packages_run, Hlate.
  eexists _, _, _, _. split; [reflexivity|].
  rewrite find_packages_run. split; [reflexivity|].
  unfold found_packages. simpl. rewrite Hcache.
  split; [by destruct invalidate_cache|]. split; [apply NoDup_elements|].
  intros x. rewrite elem_of_elements, elem_of_union, elem_of_list_to_set. done.
Qed.


End Facts.

(** ** The claims, run on the demo project *)

Module DemoFacts.

Import Demo.

(** C2 on the demo project: [pkg/fast.pyx] is covered by the declared
    [pkg/fast.c], and the discovered [pkg/slow.pyx] is not. *)
Lemma no_double_registration_demo :
  ∃ exts,
    get_cython_extensions "." ["pkg"; "pkg.sub"] [fast_c] None fresh = (Ok exts, fresh) ∧
    new_Extension "pkg.slow" ["pkg/slow.pyx"] None ∈ exts ∧
    realpath (splitext "pkg/slow.pyx").1 ≠ realpath (splitext "pkg/fast.c").1.
Proof.
  destruct (no_double_registration "." ["pkg"; "pkg.sub"] [fast_c] None fresh)
    as (exts & Hrun & Hfresh).
  exists exts. split; [exact Hrun|].
  assert (Hexts : exts =
    [new_Extension "pkg.slow" ["pkg/slow.pyx"] None;
     new_Extension "pkg.sub.deep" ["pkg/sub/deep.pyx"] None]).
  { pose proof Hrun as Hrun'. rewrite get_cython_extensions_run in Hrun'.
    apply Ok_pair_inj in Hrun' as [<- _]. vm_compute. reflexivity. }
  assert (Hin : new_Extension "pkg.slow" ["pkg/slow.pyx"] None ∈ exts).
  { rewrite Hexts. compute_done. }
  split; [exact Hin|].
  apply (Hfresh (new_Extension "pkg.slow" ["pkg/slow.pyx"] None)
           "pkg/slow.pyx" fast_c "pkg/fast.c").
  - exact Hin.
  - compute_done.
  - vm_compute. reflexivity.
  - compute_done.
  - compute_done.
  - vm_compute. reflexivity.
Defined.

(** C4 on the demo project: after a first search, a build that collects the
    package information, tries to exclude a package and asks [pkg-config]
    still gets the first list from [find_packages], for another directory. *)
Lemma find_packages_memoized_demo :
  ∃ w1 w3,
    find_packages "." [] false fresh = (Ok ["pkg"; "pkg.sub"], w1) ∧
    find_packages "elsewhere" ["pkg"] false
      (exec_all [Call_get_package_info "." [];
                 Call_add_exclude_packages ["pkg.sub"];
                 Call_pkg_config ["foo"] [] "pkg-config"] w1) =
      (Ok ["pkg"; "pkg.sub"], w3).
Proof.
  destruct (find_packages_memoized "." [] false fresh)
    as (pk & w1 & Hrun & _ & _ & Hlater).
  destruct (Hlater [Call_get_package_info "." [];
                    Call_add_exclude_packages ["pkg.sub"];
                    Call_pkg_config ["foo"] [] "pkg-config"]
                   "elsewhere" ["pkg"]) as (w3 & Hagain & _).
  { repeat constructor. }
  assert (Hpk : pk = ["pkg"; "pkg.sub"]).
  { pose proof Hrun as Hrun'. rewrite find_packages_run in Hrun'.
    apply Ok_pair_inj in Hrun' as [<- _]. vm_compute. reflexivity. }
  rewrite Hpk in *. by exists w1, w3.
Defined.

(** C5 on the demo project: before any search a name can be excluded, after
    one the call raises and changes nothing. *)
Lemma add_exclude_packages_guard_demo :
  (∃ w', add_exclude_packages ["pkg.sub"] fresh = (Ok (), w') ∧
         exclude_packages (ms w') = {["pkg.sub"]}) ∧
  (add_exclude_packages ["pkg.sub"] (find_packages "." [] false fresh).2).2 =
    (find_packages "." [] false fresh).2.
Proof.
  split.
  - destruct (add_exclude_packages_guard ["pkg.sub"] fresh) as (_ & _ & Hok & _).
    destruct Hok as (w' & Hrun & Hset & _); [reflexivity|].
    exists w'. split; [exact Hrun|]. rewrite Hset. simpl. set_solver.
  - destruct (add_exclude_packages_guard ["pkg.sub"]
                (find_packages "." [] false fresh).2) as (_ & Hsame & _).
    apply Hsame. reflexivity.
Defined.

(** C8 on the demo project: a [pkg-config] lookup leaves [_module_state]
    alone. *)
Lemma module_state_frame_demo :
  ms (exec (Call_pkg_config ["foo"] [] "pkg-config") fresh) = ms fresh.
Proof.
  apply (module_state_frame (Call_pkg_config ["foo"] [] "pkg-config") fresh).
  reflexivity.
Defined.

(** C8 as it was stated fails: [find_packages] also writes the finalization
    flag, so more than the cache and the exclusion set can differ after a
    call. *)
Lemma find_packages_writes_flag :
  ¬ ∀ (c : call) (w : @world machine), same_outside_cache_and_excludes w (exec c w).
Proof.
  intros Hframe.
  destruct (Hframe (Call_find_packages "." [] false) fresh) as (_ & _ & Hflag).
  vm_compute in Hflag. discriminate Hflag.
Qed.

(** C10 on the demo project: the build has extensions, so one named
    [pkg.compiler_version] comes last and [compiler.c] is copied into [pkg];
    with both packages excluded there is no extension and no copy. *)
Lemma compiler_version_added_demo :
  (∃ info w' collected,
     get_package_info "." [] fresh = (Ok info, w') ∧
     info !! "ext_modules" =
       Some (VExtensions
               (collected ++
                [new_Extension "pkg.compiler_version" ["pkg/_compiler.c"] None])) ∧
     copied (env w') = [("/site/extension_helpers/src/compiler.c", "./pkg/_compiler.c")]) ∧
  (∃ info w',
     get_package_info "." []
       (add_exclude_packages ["pkg"; "pkg.sub"] fresh).2 = (Ok info, w') ∧
     info !! "ext_modules" = Some (VExtensions []) ∧
     copied (env w') = []).
Proof.
  split.
  - destruct (compiler_version_added "." [] fresh)
      as (info & w' & pk & modules & cython & exts & Hrun & Hpk & Hmods & Hcy &
          Hexts & Hsome & _).
    pose proof (get_package_info_packages _ _ _ _ _ _ Hrun Hpk) as ->.
    rewrite iter_setup_packages_run in Hmods.
    apply Ok_pair_inj in Hmods as [<- _].
    rewrite get_cython_extensions_run in Hcy.
    apply Ok_pair_inj in Hcy as [<- _].
    destruct Hsome as (p & after & before & collected & Hsplit & Hbefore & _ &
                       Hlast & _ & Henv).
    { vm_compute. discriminate. }
    vm_compute in Hsplit.
    assert (Hp : p = "pkg").
    { destruct before as [|q before].
      - by injection Hsplit as <- _.
      - injection Hsplit as <- Hrest. apply Forall_cons in Hbefore as [Hlt _].
        destruct before as [|q before].
        + injection Hrest as <- _. vm_compute in Hlt. lia.
        + injection Hrest as _ Hrest. by destruct before. }
    subst p. exists info, w', collected.
    split; [exact Hrun|]. split.
    + by rewrite Hexts, Hlast.
    + rewrite Henv. vm_compute. reflexivity.
  - destruct (compiler_version_added "." []
                (add_exclude_packages ["pkg"; "pkg.sub"] fresh).2)
      as (info & w' & pk & modules & cython & exts & Hrun & Hpk & Hmods & Hcy &
          Hexts & _ & Hnone).
    pose proof (get_package_info_packages _ _ _ _ _ _ Hrun Hpk) as ->.
    rewrite iter_setup_packages_run in Hmods.
    apply Ok_pair_inj in Hmods as [<- _].
    rewrite get_cython_extensions_run in Hcy.
    apply Ok_pair_inj in Hcy as [<- _].
    destruct Hnone as [-> Henv]; [vm_compute; reflexivity|].
    exists info, w'. split; [exact Hrun|]. split; [exact Hexts|].
    rewrite Henv. vm_compute. reflexivity.
Defined.

(** C6 at a failing input.  [pkg-config] succeeds and its output has the
    token [-pthread], which is none of the five known flags: the value stored
    under [extra_compile_args] is [thread], the token without its first two
    characters, and not the token. *)
Theorem pkg_config_truncates_other_tokens :
  Py.split_ws (Py.strip pkg_config_output) =
    ["-I/usr/include/foo"; "-DNDEBUG"; "-DVERSION=2"; "-pthread"; "-L/usr/lib"; "-lfoo"] ∧
  flag_map !! Py.slice_to 2 "-pthread" = None ∧
  (pkg_config ["foo"] ["foo"] "pkg-config" fresh).1 = Ok pkg_config_answer ∧
  pkg_config_answer !! "extra_compile_args" = Some [AStr "thread"].
Proof. repeat split; vm_compute; reflexivity. Qed.

End DemoFacts.

(** ** The further properties, run on the two projects *)

Module ExtraFacts.

Import Demo.

(** X1 on the demo project. *)
Lemma pkg_config_files_by_flag_demo :
  ∃ result w',
    pkg_config ["foo"] ["bar"] "pkg-config" fresh = (Ok result, w') ∧
    args_get "include_dirs" result = [AStr "/usr/include/foo"] ∧
    args_get "libraries" result = [AStr "foo"] ∧
    args_get "define_macros" result = [ATuple ["NDEBUG"]; ATuple ["VERSION"; "2"]] ∧
    args_get "extra_compile_args" result = [AStr "thread"].
Proof.
  destruct (pkg_config_files_by_flag ["foo"] ["bar"] "pkg-config" fresh
              pkg_config_output
              {| copied := []; spawned := ["pkg-config --libs --cflags foo"] |})
    as (result & Hrun & Hinclude & _ & Hlibraries & _ & Hdefine & Hextra).
  - reflexivity.
  - assert (Htokens : Py.split_ws (Py.strip pkg_config_output) =
      ["-I/usr/include/foo"; "-DNDEBUG"; "-DVERSION=2"; "-pthread";
       "-L/usr/lib"; "-lfoo"]) by (vm_compute; reflexivity).
    rewrite Htokens.
    repeat constructor; eexists; vm_compute; reflexivity.
  - exists result. eexists. split; [exact Hrun|].
    rewrite Hinclude, Hlibraries, Hdefine, Hextra.
    repeat split; vm_compute; reflexivity.
Defined.

(** X2 on the second project: the byte [\xe9] in the first token cannot be
    decoded. *)
Lemma pkg_config_undecodable_demo :
  pkg_config ["cafe"] [] "pkg-config" Windows.fresh =
    (Raise UnicodeDecodeError, Windows.fresh).
Proof.
  apply (pkg_config_undecodable ["cafe"] [] "pkg-config" Windows.fresh
           Windows.pkg_config_output ()).
  - reflexivity.
  - assert (Htokens : Py.split_ws (Py.strip Windows.pkg_config_output) =
      ["-I/opt/caf" +:+ String (ascii_of_nat 233) ""; "-lm"])
      by (vm_compute; reflexivity).
    rewrite Htokens. apply Exists_cons_hd.
    intros [_ [value Hvalue]]. vm_compute in Hvalue. discriminate Hvalue.
Defined.

(** X3 on the demo project: the shell does not find [pkgconf]. *)
Lemma pkg_config_failure_demo :
  ∃ w', pkg_config ["foo"] ["foo"; "m"] "pkgconf" fresh =
          (Ok {[ "libraries" := [AStr "foo"; AStr "m"] ]}, w') ∧
        length (distutils_log w') = 1.
Proof.
  destruct (pkg_config_failure ["foo"] ["foo"; "m"] "pkgconf" fresh
              (Completed "" 127)
              {| copied := []; spawned := ["pkgconf --libs --cflags foo"] |})
    as [message Hrun].
  - reflexivity.
  - simpl. lia.
  - eexists. split; [exact Hrun|reflexivity].
Defined.

(** X4 on the demo project. *)
Lemma pkg_config_result_shape_demo :
  ∃ result w',
    pkg_config ["foo"] [] "pkg-config" fresh = (Ok result, w') ∧
    dom result ⊆ extension_arguments.
Proof.
  assert (Hrun : ∃ result w',
    pkg_config ["foo"] [] "pkg-config" fresh = (Ok result, w')).
  { eexists _, _.
    apply (pkg_config_lookup_succeeded ["foo"] [] "pkg-config" fresh
             pkg_config_output
             {| copied := []; spawned := ["pkg-config --libs --cflags foo"] |}).
    - reflexivity.
    - vm_compute. reflexivity. }
  destruct Hrun as (result & w' & Hrun).
  exists result, w'. split; [exact Hrun|].
  exact (proj1 (pkg_config_result_shape _ _ _ _ _ _ Hrun)).
Defined.

(** X5 on the demo project: after a first search, collecting the package
    information and searching again leave the exclusion set empty. *)
Lemma exclusions_stay_frozen_demo :
  exclude_packages
    (ms (exec_all [Call_get_package_info "." [];
                   Call_add_exclude_packages ["pkg"];
                   Call_find_packages "." [] true]
           (find_packages "." [] false fresh).2)) = ∅.
Proof.
  destruct (exclusions_stay_frozen
              [Call_get_package_info "." [];
               Call_add_exclude_packages ["pkg"];
               Call_find_packages "." [] true]
              ["pkg.sub"] (find_packages "." [] false fresh).2)
    as (_ & Hsame & _).
  - reflexivity.
  - rewrite Hsame. reflexivity.
Defined.

(** X9 on the demo project. *)
Lemma add_exclude_packages_accumulates_demo :
  ∃ w1 w2,
    add_exclude_packages ["pkg.sub"] fresh = (Ok (), w1) ∧
    add_exclude_packages ["docs"] w1 = (Ok (), w2) ∧
    add_exclude_packages ["pkg.sub"; "docs"] fresh = (Ok (), w2).
Proof.
  destruct (add_exclude_packages_accumulates ["pkg.sub"] ["docs"] fresh)
    as (w1 & w2 & H1 & H2 & H12 & _).
  - reflexivity.
  - by exists w1, w2.
Defined.

(** X11 on the demo project. *)
Lemma cython_discovery_idempotent_demo :
  ∃ exts,
    get_cython_extensions "." ["pkg"; "pkg.sub"] [fast_c] None fresh =
      (Ok exts, fresh) ∧
    get_cython_extensions "." ["pkg"; "pkg.sub"] ([fast_c] ++ exts) None fresh =
      (Ok [], fresh).
Proof.
  apply (cython_discovery_idempotent "." ["pkg"; "pkg.sub"] [fast_c] None fresh).
  intros package_name fn Hpackage Hfn Hpyx.
  apply list_elem_of_In in Hpackage. simpl in Hpackage.
  destruct Hpackage as [<-|[<-|[]]];
    vm_compute in Hfn; apply list_elem_of_In in Hfn; simpl in Hfn;
    repeat (destruct Hfn as [<-|Hfn]; [first [vm_compute; reflexivity
                                             |vm_compute in Hpyx; discriminate Hpyx]|]);
    destruct Hfn.
Defined.

(** X12 on the demo project, with both packages excluded. *)
Lemma get_package_info_without_packages_demo :
  ∃ info w',
    get_package_info "." [] (add_exclude_packages ["pkg"; "pkg.sub"] fresh).2 =
      (Ok info, w') ∧
    info !! "ext_modules" = Some (VExtensions []) ∧
    command_options w' = [].
Proof.
  destruct (get_package_info_without_packages "." []
              (add_exclude_packages ["pkg"; "pkg.sub"] fresh).2 []
              (after_find_packages "." [] false
                 (add_exclude_packages ["pkg"; "pkg.sub"] fresh).2))
    as (info & w' & Hrun & Hexts & _ & _ & Hoptions & _).
  - rewrite find_packages_run. f_equal; vm_compute; reflexivity.
  - reflexivity.
  - exists info, w'. split; [exact Hrun|]. split; [exact Hexts|].
    rewrite Hoptions. reflexivity.
Defined.


(** X16 on the demo project. *)
Lemma exclusions_reach_search_demo :
  ∃ w1 (passed : list string) pk w2,
    add_exclude_packages ["pkg.sub"] fresh = (Ok (), w1) ∧
    find_packages "." [] false w1 = (Ok pk, w2) ∧
    pk = filter (λ p, p ∉ passed) ["pkg"; "pkg.sub"] ∧
    "pkg.sub" ∈ passed.
Proof.
  destruct (exclusions_reach_search ["pkg.sub"] "." [] false fresh)
    as (w1 & passed & pk & w2 & Hadd & Hfind & Hpk & _ & Hpassed).
  - reflexivity.
  - reflexivity.
  - exists w1, passed, pk, w2. split; [exact Hadd|]. split; [exact Hfind|].
    split; [exact Hpk|]. apply Hpassed. right. by left.
Defined.

End ExtraFacts.
